(** * cloudwatch_dump: discovery, batched query and correlation pipeline

    A shallow embedding of [cloudwatch_dump.py].  Python values are a small
    universe [pyval]; exceptions are values of [exn]; code that talks to the
    metrics provider, the file system or the terminal runs in a monad [M]
    that threads the state of the outside world, records every externally
    visible event and propagates the first exception raised. *)

From Stdlib Require Import ZArith Lia Ascii String DecimalString DecimalNat.
From stdpp Require Import base option list strings.

Set Warnings "-register-all".
Local Open Scope Z_scope.

(** ** Python values and exceptions *)

(** The values the program handles: [None], integers, strings, datetimes
    (an instant, see below), lists and dicts.  A dict keeps its items in
    insertion order, as Python's does; lookup takes the first item with the
    key. *)
Inductive pyval : Type :=
  | PNone
  | PInt (z : Z)
  | PStr (s : string)
  | PDate (t : Z)
  | PList (l : list pyval)
  | PDict (d : list (string * pyval)).

Inductive exn : Type :=
  | TypeError
  | ValueError
  | KeyError (key : string)
  | IndexError
  | AttributeError (attr : string)
  | OverflowError
  | ZeroDivisionError
  | OSError
  | ClientError (msg : string)
  | Exception (msg : string).

(** The outcome of running a piece of Python: a value, or an exception. *)
Inductive result (A : Type) : Type :=
  | Ok (a : A)
  | Err (e : exn).
Arguments Ok {A} a.
Arguments Err {A} e.

Global Instance result_ret : MRet result := fun A a => Ok a.
Global Instance result_bind : MBind result := fun A B k r =>
  match r with
  | Ok a => k a
  | Err e => Err e
  end.

(** [bool(v)] *)
Definition truthy (v : pyval) : bool :=
  match v with
  | PNone => false
  | PInt z => negb (z =? 0)
  | PStr s => negb (String.eqb s "")
  | PDate _ => true
  | PList l => negb (Nat.eqb (length l) 0)
  | PDict d => negb (Nat.eqb (length d) 0)
  end.

Fixpoint assoc (k : string) (d : list (string * pyval)) : option pyval :=
  match d with
  | [] => None
  | (k', v) :: d' => if String.eqb k k' then Some v else assoc k d'
  end.

(** [v.get(k)]: only dicts have the method. *)
Definition py_get (v : pyval) (k : string) : result pyval :=
  match v with
  | PDict d => Ok (default PNone (assoc k d))
  | _ => Err (AttributeError "get")
  end.

(** [v[k]] with a string key [k]. *)
Definition py_getitem (v : pyval) (k : string) : result pyval :=
  match v with
  | PDict d => match assoc k d with
               | Some x => Ok x
               | None => Err (KeyError k)
               end
  | _ => Err TypeError
  end.

(** [v.name] for an attribute that is not a method of the builtin types:
    no value of the universe carries one. *)
Definition py_getattr (v : pyval) (name : string) : result pyval :=
  Err (AttributeError name).

Fixpoint chars (s : string) : list pyval :=
  match s with
  | EmptyString => []
  | String c s' => PStr (String c EmptyString) :: chars s'
  end.

(** The elements [list(v)] and [enumerate(v)] iterate over. *)
Definition py_iter (v : pyval) : result (list pyval) :=
  match v with
  | PList l => Ok l
  | PStr s => Ok (chars s)
  | PDict d => Ok ((fun kv => PStr (fst kv)) <$> d)
  | PNone | PInt _ | PDate _ => Err TypeError
  end.

(** [l[i]] for a list [l] and an index [i >= 0]. *)
Definition list_getitem {A} (l : list A) (i : nat) : result A :=
  match l !! i with
  | Some x => Ok x
  | None => Err IndexError
  end.

Fixpoint enumerate_from {A} (k : nat) (l : list A) : list (nat * A) :=
  match l with
  | [] => []
  | x :: l' => (k, x) :: enumerate_from (S k) l'
  end.

Definition enumerate {A} (l : list A) : list (nat * A) := enumerate_from 0 l.

(** [str.lower] for a string of ASCII characters: the letters [A] to [Z] are
    lowered, every other character is kept.  On such strings this is what
    Python computes; Python also lowers the cased letters outside ASCII,
    which [lower] keeps, so what is stated about lowered statistics is
    stated for ASCII statistics ([is_ascii] below), as the names of the
    provider's statistics are. *)
Definition lower_char (c : ascii) : ascii :=
  let n := nat_of_ascii c in
  if (Nat.leb 65 n && Nat.leb n 90)%bool then ascii_of_nat (n + 32) else c.

Fixpoint lower (s : string) : string :=
  match s with
  | EmptyString => EmptyString
  | String c s' => String (lower_char c) (lower s')
  end.

(** The strings all of whose characters are ASCII (code below 128). *)
Definition is_ascii_char (c : ascii) : bool := Nat.ltb (nat_of_ascii c) 128.

Fixpoint is_ascii (s : string) : bool :=
  match s with
  | EmptyString => true
  | String c s' => is_ascii_char c && is_ascii s'
  end.

(** [str(n)] for a natural number, as the f-string of the ids formats the
    index. *)
Definition str_of_nat (n : nat) : string := NilEmpty.string_of_uint (Nat.to_uint n).

(** ** Dates and durations

    An instant is a count of microseconds since [datetime.min]; a duration
    ([timedelta]) is a count of microseconds. *)

Definition us_per_minute : Z := 60000000.
Definition us_per_day : Z := 86400000000.
Definition max_days : Z := 999999999.
Definition datetime_end : Z := 3652059 * us_per_day.

(** [timedelta(minutes=m)]: refused when the days fall outside
    [-999999999, 999999999]. *)
Definition timedelta_minutes (m : Z) : result Z :=
  let days := m / 1440 in
  if ((- max_days <=? days) && (days <=? max_days))%bool
  then Ok (m * us_per_minute)
  else Err OverflowError.

(** [t + d] and [t - d] on a datetime: the result stays within years 1..9999. *)
Definition datetime_check (t : Z) : result Z :=
  if ((0 <=? t) && (t <? datetime_end))%bool then Ok t else Err OverflowError.
Definition datetime_add (t d : Z) : result Z := datetime_check (t + d).
Definition datetime_sub (t d : Z) : result Z := datetime_check (t - d).

(** Modelled from the spec: [RichDateTime.from_datetime] of the module [util],
    which is not part of the sources.  The spec has both bounds of the window
    converted to UTC-normalized values; the conversion keeps the instant. *)
Definition from_datetime (t : Z) : Z := t.

(** [RichDateTime.strptime] and the operator [%] of [RichDateTime] belong to
    the module [util], which is not part of the sources: the resolver takes
    them as a parameter. *)
Record util_module : Type := {
  strptime : string -> result Z;
  rdt_mod : Z -> Z -> result Z
}.

(** [get_time_range(time_str, interval)], with the reading [now] of the clock
    ([RichDateTime.now()]) made an argument. *)
Definition get_time_range (U : util_module) (now : Z) (time_str : pyval) (interval : Z)
  : result (Z * Z) :=
  d ← timedelta_minutes interval;
  t ← (if truthy time_str then
         match time_str with
         | PStr s => strptime U s
         | _ => Err TypeError
         end
       else
         b ← rdt_mod U now d;
         t' ← datetime_sub b d;
         Ok (from_datetime t'));
  e ← datetime_add t d;
  Ok (t, from_datetime e).

(** *** The missing [util] module, from the spec *)

Definition is_digit (c : ascii) : bool :=
  let n := nat_of_ascii c in (Nat.leb 48 n && Nat.leb n 57)%bool.

Fixpoint digits (s : string) : option (list Z) :=
  match s with
  | EmptyString => Some []
  | String c s' =>
      if is_digit c
      then cons (Z.of_nat (nat_of_ascii c) - 48) <$> digits s'
      else None
  end.

Definition number (ds : list Z) : Z := fold_left (fun a d => 10 * a + d) ds 0.

Definition is_leap (y : Z) : bool :=
  ((y mod 4 =? 0) && (negb (y mod 100 =? 0) || (y mod 400 =? 0)))%bool.

Definition days_before_year (y : Z) : Z :=
  let p := y - 1 in p * 365 + p / 4 - p / 100 + p / 400.

Definition days_in_month (y m : Z) : Z :=
  if m =? 2 then (if is_leap y then 29 else 28)
  else if ((m =? 4) || (m =? 6) || (m =? 9) || (m =? 11))%bool then 30 else 31.

Fixpoint days_before_month (y : Z) (m : nat) : Z :=
  match m with
  | O => 0
  | S m' => days_before_month y m' + days_in_month y (Z.of_nat m)
  end.

(** Microseconds from [datetime.min] to the given minute of the calendar. *)
Definition instant_of (y m d h mi : Z) : Z :=
  (days_before_year y + days_before_month y (Z.to_nat (m - 1)) + (d - 1)) * us_per_day
  + (h * 60 + mi) * us_per_minute.

(** Modelled from the spec: [RichDateTime.strptime(s, '%Y%m%d%H%M')] of the
    missing module [util].  The anchor has the fixed format [YYYYMMDDhhmm];
    a malformed anchor is a parse error. *)
Definition strptime_spec (s : string) : result Z :=
  match digits s with
  | Some [y1; y2; y3; y4; m1; m2; d1; d2; h1; h2; n1; n2] =>
      let y := number [y1; y2; y3; y4] in
      let m := number [m1; m2] in
      let d := number [d1; d2] in
      let h := number [h1; h2] in
      let mi := number [n1; n2] in
      if ((1 <=? y) && (1 <=? m) && (m <=? 12) && (1 <=? d) && (d <=? days_in_month y m)
          && (h <=? 23) && (mi <=? 59))%bool
      then Ok (instant_of y m d h mi)
      else Err ValueError
  | _ => Err ValueError
  end.

(** Modelled from the spec: the operator [%] of [RichDateTime] in the missing
    module [util].  The spec reads [now % d] as the current time rounded down
    to the nearest interval boundary, the remainder of [now] modulo the
    interval subtracted; the remainder by an empty interval is an error. *)
Definition rdt_floor (t d : Z) : result Z :=
  if d =? 0 then Err ZeroDivisionError else Ok (t - t mod d).

Definition util_spec : util_module :=
  {| strptime := strptime_spec; rdt_mod := rdt_floor |}.

(** ** The outside world *)

(** The keyword arguments of [client.list_metrics] and of
    [client.get_metric_data]. *)
Record list_metrics_request : Type := {
  Namespace : pyval;
  Dimensions : pyval;
  NextToken : option pyval
}.

Record get_metric_data_request : Type := {
  MetricDataQueries : list pyval;
  StartTime : Z;
  EndTime : Z
}.

(** What a run does that can be seen from outside.  [EPrint fmt args] is
    [print(fmt % args)]. *)
Inductive event : Type :=
  | EListMetrics (req : list_metrics_request)
  | EGetMetricData (req : get_metric_data_request)
  | EPrint (fmt : string) (args : list pyval)
  | EOpen (filename : string)
  | EDump (data : pyval).

(** The collaborators of the program, over a state [St] of the world:
    the clock, [boto3.client('cloudwatch')] (an exception, or the truth value
    of the client it returns), the two calls of the client, [open(f, 'wb')]
    and [pickle.dump]. *)
Record world (St : Type) : Type := {
  clock : St -> Z;
  boto3_client : St -> result bool;
  list_metrics : list_metrics_request -> St -> result pyval * St;
  get_metric_data : get_metric_data_request -> St -> result pyval * St;
  open_wb : string -> St -> result unit * St;
  pickle_dump : pyval -> St -> result unit * St
}.
Arguments clock {St}.
Arguments boto3_client {St}.
Arguments list_metrics {St}.
Arguments get_metric_data {St}.
Arguments open_wb {St}.
Arguments pickle_dump {St}.

(** A run from a state: the outcome ([None] when the fuel of a loop ran out),
    the state reached and the events, oldest first. *)
Record run (St A : Type) : Type := Run {
  outcome : option (result A);
  final : St;
  events : list event
}.
Arguments Run {St A}.
Arguments outcome {St A}.
Arguments final {St A}.
Arguments events {St A}.

Definition M (St A : Type) : Type := St -> run St A.

Definition ret {St A} (a : A) : M St A := fun s => Run (Some (Ok a)) s [].

Definition raise {St A} (e : exn) : M St A := fun s => Run (Some (Err e)) s [].

Definition out_of_fuel {St A} : M St A := fun s => Run None s [].

Definition bind {St A B} (m : M St A) (k : A -> M St B) : M St B := fun s =>
  let r := m s in
  match outcome r with
  | Some (Ok a) =>
      let r' := k a (final r) in
      Run (outcome r') (final r') (events r ++ events r')
  | Some (Err e) => Run (Some (Err e)) (final r) (events r)
  | None => Run None (final r) (events r)
  end.

Notation "x <- m ;; k" := (bind m (fun x => k))
  (at level 100, m at next level, right associativity, only parsing).
Notation "m ;;; k" := (bind m (fun _ => k))
  (at level 100, right associativity, only parsing).

(** A pure computation, and a computation that reads the state. *)
Definition lift {St A} (r : result A) : M St A := fun s => Run (Some r) s [].
Definition reads {St A} (f : St -> result A) : M St A := fun s => Run (Some (f s)) s [].

(** A call to a collaborator: the event is recorded, then the call runs. *)
Definition call {St A} (ev : event) (f : St -> result A * St) : M St A := fun s =>
  let '(r, s') := f s in Run (Some r) s' [ev].

Definition emit {St} (ev : event) : M St unit := fun s => Run (Some (Ok tt)) s [ev].

Fixpoint for_each {St A} (l : list A) (body : A -> M St unit) : M St unit :=
  match l with
  | [] => ret tt
  | x :: l' => body x ;;; for_each l' body
  end.

Fixpoint try_map {A B} (f : A -> result B) (l : list A) : result (list B) :=
  match l with
  | [] => Ok []
  | x :: l' => y ← f x; ys ← try_map f l'; Ok (y :: ys)
  end.

(** ** MetricCatalogFetcher *)

(** The [while True] loop of [get_metrics]; [fuel] bounds its iterations. *)
Fixpoint get_metrics_loop {St} (W : world St) (fuel : nat)
    (namespace dimensions : pyval) (buf : list pyval) (next_token : pyval)
  : M St (list pyval) :=
  match fuel with
  | O => out_of_fuel
  | S fuel' =>
      let req :=
        if truthy next_token
        then {| Namespace := namespace; Dimensions := dimensions;
                NextToken := Some next_token |}
        else {| Namespace := namespace; Dimensions := dimensions;
                NextToken := None |} in
      result <- call (EListMetrics req) (list_metrics W req) ;;
      page <- lift (v ← py_get result "Metrics"; py_iter v) ;;
      let buf' := buf ++ page in
      tok <- lift (py_get result "next_token") ;;
      if negb (truthy tok) then ret buf'
      else
        next_token' <- lift (py_getattr result "next_token") ;;
        get_metrics_loop W fuel' namespace dimensions buf' next_token'
  end.

Definition get_metrics {St} (W : world St) (fuel : nat)
    (region : string) (namespace dimensions : pyval) : M St (list pyval) :=
  client <- reads (boto3_client W) ;;
  if negb client
  then raise (Exception ("Failed to connect to region: " +:+ region))
  else get_metrics_loop W fuel namespace dimensions [] PNone.

(** ** QueryBatchBuilder and MetricsDataClient *)

(** One element of the comprehension [metric_data] of [get_data]. *)
Definition descriptor (stat : string) (index : nat) (metric : pyval) (period_in_sec : Z)
  : pyval :=
  PDict [("Id", PStr (lower stat +:+ str_of_nat index));
         ("MetricStat", PDict [("Metric", metric);
                               ("Period", PInt period_in_sec);
                               ("Stat", PStr stat)])].

Definition build_metric_data (metrics : list pyval) (statistics_list : list string)
    (period_in_sec : Z) : list pyval :=
  '(index, metric) ← enumerate metrics;
  stat ← statistics_list;
  [descriptor stat index metric period_in_sec].

(** The comprehension [get_data] returns, over the elements of
    [data['MetricDataResults']]. *)
Definition correlate_entry (metric_data : list pyval) (entry : nat * pyval)
  : result pyval :=
  let '(index, datapoint) := entry in
  q ← list_getitem metric_data index;
  ms ← py_getitem q "MetricStat";
  metric ← py_getitem ms "Metric";
  Ok (PDict [("Data", datapoint); ("Metric", metric)]).

Definition correlate (metric_data : list pyval) (results : list pyval)
  : result (list pyval) :=
  try_map (correlate_entry metric_data) (enumerate results).

Definition get_data {St} (W : world St) (metrics : list pyval)
    (statistics_list : list string) (start end_ : Z) (period_in_sec : Z)
  : M St (list pyval) :=
  client <- reads (boto3_client W) ;;
  if negb client then raise (Exception "Failed to connect")
  else
    p <- lift (timedelta_minutes period_in_sec) ;;
    let metric_data := build_metric_data metrics statistics_list period_in_sec in
    let req := {| MetricDataQueries := metric_data;
                  StartTime := start; EndTime := end_ |} in
    data <- call (EGetMetricData req) (get_metric_data W req) ;;
    lift (results ← py_getitem data "MetricDataResults";
          items ← py_iter results;
          correlate metric_data items).

(** ** The entry point *)

(** The parsed command line ([parse_args] is outside the pipeline). *)
Record options : Type := {
  region : string;
  time : pyval;
  interval : Z;
  period : Z;
  resolve : bool;
  check : bool;
  namespace : string;
  dimensions : pyval;
  filename : option string
}.

(** [main()].  [print(data)] is recorded as [print('%s' % data)]; the [with]
    block closes the file on its way out, which is not an event here. *)
Definition main {St} (U : util_module) (W : world St) (fuel : nat) (opts : options)
  : M St Z :=
  let statistics_list := ["Average"; "Sum"] in
  range <- reads (fun s => get_time_range U (clock W s) (time opts) (interval opts)) ;;
  let '(start, end_) := range in
  metrics <- get_metrics W fuel (region opts) (PStr (namespace opts)) (dimensions opts) ;;
  let query_params := (m ← metrics; s ← statistics_list; [(m, s)]) in
  if check opts then
    (emit (EPrint "start : %s" [PDate start]) ;;;
     emit (EPrint "end   : %s" [PDate end_]) ;;;
     emit (EPrint "period: %s min" [PInt (period opts)]) ;;;
     for_each query_params (fun q =>
       emit (EPrint "will collect metric: %s %s" [fst q; PStr (snd q)])) ;;;
     ret 0)
  else
    (data <- get_data W metrics statistics_list start end_ (period opts) ;;
     match filename opts with
     | None => raise TypeError
     | Some f =>
         call (EOpen f) (open_wb W f) ;;;
         call (EDump (PList data)) (pickle_dump W (PList data)) ;;;
         emit (EPrint "Wrote results to file: %s" [PStr f]) ;;;
         emit (EPrint "%s" [PList data]) ;;;
         ret 0
     end).

(** ** Concrete worlds *)

(** A provider that serves a catalog page by page the way the listing call of
    the provider does: the response is a dict with the page under ['Metrics']
    and, when a page follows, its key under ['NextToken']; a request without
    a token gets the first page, a request with a token the page of that key. *)
Fixpoint serve_page (pages : list (string * list pyval)) (tok : option pyval)
  : result pyval :=
  match pages with
  | [] => Err (ClientError "InvalidNextToken")
  | (key, metrics) :: rest =>
      let here := match tok with
                  | None => true
                  | Some (PStr t) => String.eqb t key
                  | Some _ => false
                  end in
      if here
      then Ok (PDict (("Metrics", PList metrics)
                      :: match rest with
                         | [] => []
                         | (next, _) :: _ => [("NextToken", PStr next)]
                         end))
      else serve_page rest tok
  end.

(** A provider that answers a batched query with one entry per submitted
    descriptor, in the order submitted, each echoing the id of its query. *)
Definition answer_in_order (req : get_metric_data_request) : result pyval :=
  entries ← try_map (fun q => id ← py_getitem q "Id";
                           Ok (PDict [("Id", id); ("Values", PList [])]))
                 (MetricDataQueries req);
  Ok (PDict [("MetricDataResults", PList entries)]).

Record script : Type := {
  sc_now : Z;
  sc_client : result bool;
  sc_pages : list (string * list pyval);
  sc_data : get_metric_data_request -> result pyval;
  sc_open : string -> result unit
}.

Definition scripted (sc : script) : world unit :=
  {| clock := fun _ => sc_now sc;
     boto3_client := fun _ => sc_client sc;
     list_metrics := fun req s => (serve_page (sc_pages sc) (NextToken req), s);
     get_metric_data := fun req s => (sc_data sc req, s);
     open_wb := fun f s => (sc_open sc f, s);
     pickle_dump := fun _ s => (Ok tt, s) |}.

(** ** Observations used in the statements *)

(** The ids of a batch, as the provider reads them: [q['Id']]. *)
Definition descriptor_ids (batch : list pyval) : list (result pyval) :=
  (fun q => py_getitem q "Id") <$> batch.

(** [q['MetricStat'][k]] *)
Definition metric_stat (k : string) (q : pyval) : result pyval :=
  ms ← py_getitem q "MetricStat"; py_getitem ms k.

Fixpoint ends_with_digit (s : string) : bool :=
  match s with
  | EmptyString => false
  | String c EmptyString => is_digit c
  | String _ s' => ends_with_digit s'
  end.

Definition is_file_event (e : event) : bool :=
  match e with
  | EOpen _ | EDump _ => true
  | _ => false
  end.

Definition is_query_event (e : event) : bool :=
  match e with
  | EGetMetricData _ => true
  | _ => false
  end.

Definition is_listing_event (e : event) : bool :=
  match e with
  | EListMetrics _ => true
  | _ => false
  end.

Definition is_print_event (e : event) : bool :=
  match e with
  | EPrint _ _ => true
  | _ => false
  end.

Definition with_region (r : string) (o : options) : options :=
  {| region := r; time := time o; interval := interval o; period := period o;
     resolve := resolve o; check := check o; namespace := namespace o;
     dimensions := dimensions o; filename := filename o |}.

(** The lines the check mode prints for a window, a period and a catalog. *)
Definition planned_output (start end_ period_in_sec : Z) (metrics : list pyval)
  : list event :=
  [EPrint "start : %s" [PDate start];
   EPrint "end   : %s" [PDate end_];
   EPrint "period: %s min" [PInt period_in_sec]]
  ++ ((fun q : pyval * string =>
         EPrint "will collect metric: %s %s" [fst q; PStr (snd q)])
      <$> (m ← metrics; s ← ["Average"; "Sum"]; [(m, s)])).

(** ** Sample inputs *)

Definition cpu : pyval :=
  PDict [("Namespace", PStr "AWS/EC2"); ("MetricName", PStr "CPUUtilization");
         ("Dimensions", PList [])].

Definition disk : pyval :=
  PDict [("Namespace", PStr "AWS/EC2"); ("MetricName", PStr "DiskReadOps");
         ("Dimensions", PList [])].

(** 2024-01-15 09:47:12 *)
Definition sample_now : Z := instant_of 2024 1 15 9 47 + 12000000.

(** A catalog of two pages, a token on the first. *)
Definition two_pages : script :=
  {| sc_now := sample_now; sc_client := Ok true;
     sc_pages := [("page1", [cpu]); ("page2", [disk])];
     sc_data := answer_in_order; sc_open := fun _ => Ok tt |}.

(** A provider whose first response carries the token under the key
    ['next_token'], the key the loop of [get_metrics] tests. *)
Definition lower_case_token : world unit :=
  {| clock := fun _ => sample_now;
     boto3_client := fun _ => Ok true;
     list_metrics := fun req s =>
       (Ok (PDict [("Metrics", PList [cpu]); ("next_token", PStr "page2")]), s);
     get_metric_data := fun req s => (answer_in_order req, s);
     open_wb := fun f s => (Ok tt, s);
     pickle_dump := fun _ s => (Ok tt, s) |}.

Definition one_page : script :=
  {| sc_now := sample_now; sc_client := Ok true;
     sc_pages := [("page1", [cpu])];
     sc_data := answer_in_order; sc_open := fun _ => Ok tt |}.


Definition sample_options : options :=
  {| region := "us-east-1"; time := PStr "202401150930"; interval := 60;
     period := 60; resolve := false; check := false; namespace := "AWS/EC2";
     dimensions := PNone; filename := Some "dump.pkl" |}.

Definition check_options : options :=
  {| region := "us-east-1"; time := PStr "202401150930"; interval := 60;
     period := 60; resolve := false; check := true; namespace := "AWS/EC2";
     dimensions := PNone; filename := None |}.

(** Eleven metrics, for the ids of positions 0 and 10. *)
Definition eleven_metrics : list pyval := replicate 11 cpu.

(** ** Further inputs and observations *)

Definition with_resolve (b : bool) (o : options) : options :=
  {| region := region o; time := time o; interval := interval o; period := period o;
     resolve := b; check := check o; namespace := namespace o;
     dimensions := dimensions o; filename := filename o |}.

Definition with_filename (f : option string) (o : options) : options :=
  {| region := region o; time := time o; interval := interval o; period := period o;
     resolve := resolve o; check := check o; namespace := namespace o;
     dimensions := dimensions o; filename := f |}.

(** The one request [get_metrics] can send for given filters. *)
Definition first_request (namespace dimensions : pyval) : list_metrics_request :=
  {| Namespace := namespace; Dimensions := dimensions; NextToken := None |}.

(** A provider whose listing response has no ['Metrics'] entry. *)
Definition no_metrics_key : world unit :=
  {| clock := fun _ => sample_now;
     boto3_client := fun _ => Ok true;
     list_metrics := fun req s => (Ok (PDict [("ResponseMetadata", PDict [])]), s);
     get_metric_data := fun req s => (answer_in_order req, s);
     open_wb := fun f s => (Ok tt, s);
     pickle_dump := fun _ s => (Ok tt, s) |}.

(** A provider whose answer to the batched query has no
    ['MetricDataResults'] entry. *)
Definition no_results_key : script :=
  {| sc_now := sample_now; sc_client := Ok true;
     sc_pages := [("page1", [cpu])];
     sc_data := fun _ => Ok (PDict [("ResponseMetadata", PDict [])]);
     sc_open := fun _ => Ok tt |}.

(** A provider that returns fewer entries than it was asked for: the first
    one only. *)
Definition short_answer : script :=
  {| sc_now := sample_now; sc_client := Ok true;
     sc_pages := [("page1", [cpu; disk])];
     sc_data := fun _ =>
       Ok (PDict [("MetricDataResults", PList [PDict [("Id", PStr "average0")]])]);
     sc_open := fun _ => Ok tt |}.

(** A world without a connection: the client is falsy. *)
Definition disconnected : script :=
  {| sc_now := sample_now; sc_client := Ok false;
     sc_pages := [("page1", [cpu])];
     sc_data := answer_in_order; sc_open := fun _ => Ok tt |}.

Definition options_without_filename : options := with_filename None sample_options.

(** ** Auxiliary definitions for the proofs *)

(** The request one iteration of the loop of [get_metrics] sends. *)
Definition listing_request (namespace dimensions next_token : pyval)
  : list_metrics_request :=
  if truthy next_token
  then {| Namespace := namespace; Dimensions := dimensions;
          NextToken := Some next_token |}
  else {| Namespace := namespace; Dimensions := dimensions; NextToken := None |}.

(** What one iteration makes of the response of the provider. *)
Definition single_fetch (buf : list pyval) (response : result pyval)
  : result (list pyval) :=
  result ← response;
  v ← py_get result "Metrics";
  page ← py_iter v;
  tok ← py_get result "next_token";
  if negb (truthy tok) then Ok (buf ++ page)
  else Err (AttributeError "next_token").

Fixpoint all_digits (s : string) : bool :=
  match s with
  | EmptyString => true
  | String c s' => is_digit c && all_digits s'
  end.

(** The batch of a catalog whose first metric has position [k]. *)
Definition batch_from (k : nat) (metrics : list pyval) (statistics_list : list string)
    (period_in_sec : Z) : list pyval :=
  '(index, metric) ← enumerate_from k metrics;
  stat ← statistics_list;
  [descriptor stat index metric period_in_sec].

Definition is_descriptor (q : pyval) : Prop :=
  exists m, metric_stat "Metric" q = Ok m.

(** What [main] does once the results are fetched: the [with] block that
    opens the snapshot file, dumps the results and reports. *)
Definition main_tail {St} (W : world St) (f : string) (data : list pyval) (s : St)
  : run St Z :=
  let o := open_wb W f s in
  match o.1 with
  | Err e => Run (Some (Err e)) o.2 [EOpen f]
  | Ok _ =>
      let d := pickle_dump W (PList data) o.2 in
      match d.1 with
      | Err e => Run (Some (Err e)) d.2 [EOpen f; EDump (PList data)]
      | Ok _ => Run (Some (Ok 0)) d.2
                  [EOpen f; EDump (PList data);
                   EPrint "Wrote results to file: %s" [PStr f];
                   EPrint "%s" [PList data]]
      end
  end.

(** * Properties *)

(** ** The two monads *)

(** A sequence that succeeds has succeeded at each step. *)
Lemma result_bind_Ok {A B} (r : result A) (k : A -> result B) (b : B) :
  (r ≫= k) = Ok b -> exists a, r = Ok a /\ k a = Ok b.
Proof. destruct r as [a|e]; simpl; [eauto | discriminate]. Qed.

Lemma bind_Ok {St A B} (m : M St A) (k : A -> M St B) s a s1 evs :
  m s = Run (Some (Ok a)) s1 evs ->
  bind m k s = Run (outcome (k a s1)) (final (k a s1)) (evs ++ events (k a s1)).
Proof. unfold bind. by intros ->. Qed.

Lemma bind_Err {St A B} (m : M St A) (k : A -> M St B) s e s1 evs :
  m s = Run (Some (Err e)) s1 evs -> bind m k s = Run (Some (Err e)) s1 evs.
Proof. unfold bind. by intros ->. Qed.

Lemma bind_None {St A B} (m : M St A) (k : A -> M St B) s s1 evs :
  m s = Run None s1 evs -> bind m k s = Run None s1 evs.
Proof. unfold bind. by intros ->. Qed.

Lemma for_each_emit {St A} (f : A -> event) (l : list A) (s : St) :
  for_each l (fun x => emit (f x)) s = Run (Some (Ok tt)) s (f <$> l).
Proof.
  induction l as [|x l IH]; [done|].
  cbn [for_each]. unfold bind. cbn. rewrite IH. done.
Qed.

(** ** TimeWindowResolver *)

Lemma timedelta_minutes_Ok m d : timedelta_minutes m = Ok d -> d = m * us_per_minute.
Proof. unfold timedelta_minutes. case_match; congruence. Qed.

Lemma datetime_check_Ok t r : datetime_check t = Ok r -> r = t.
Proof. unfold datetime_check. case_match; congruence. Qed.

(** A window that is produced ends one interval after its start; its start is
    the parsed anchor, or one interval before what [%] makes of the clock. *)
Lemma get_time_range_Ok U now time_str interval s e :
  get_time_range U now time_str interval = Ok (s, e) ->
  e = s + interval * us_per_minute /\
  ((truthy time_str = true /\ exists a, time_str = PStr a /\ strptime U a = Ok s) \/
   (truthy time_str = false /\
    exists b, rdt_mod U now (interval * us_per_minute) = Ok b /\
              s = b - interval * us_per_minute)).
Proof.
  unfold get_time_range. intros H.
  apply result_bind_Ok in H as (d & Hd & H).
  apply timedelta_minutes_Ok in Hd. subst d.
  apply result_bind_Ok in H as (t & Ht & H).
  apply result_bind_Ok in H as (e' & He & H).
  apply datetime_check_Ok in He. injection H as -> <-. subst e'.
  split; [reflexivity|].
  destruct (truthy time_str) eqn:Htr.
  - left. split; [done|]. destruct time_str; try discriminate. eauto.
  - right. split; [done|].
    apply result_bind_Ok in Ht as (b & Hb & Ht).
    apply result_bind_Ok in Ht as (t' & Ht' & Ht).
    apply datetime_check_Ok in Ht'. injection Ht as <-. unfold from_datetime. eauto.
Qed.

(** C4, as amended: whenever [get_time_range] produces a window, [end - start]
    is the interval; [end > start] holds exactly when the interval is
    positive; and with a non-empty anchor the start is the parsed anchor and
    [end = start + interval]. *)
Theorem window_length U now time_str interval s e :
  get_time_range U now time_str interval = Ok (s, e) ->
  e - s = interval * us_per_minute /\
  (e > s <-> interval > 0) /\
  (forall a, time_str = PStr a -> a <> "" ->
     strptime U a = Ok s /\ e = s + interval * us_per_minute).
Proof.
  intros H. apply get_time_range_Ok in H as (He & Hs).
  split; [lia|]. split; [unfold us_per_minute in *; lia|].
  intros a -> Ha. split; [|done].
  destruct Hs as [(_ & a' & [= <-] & Hp)|(Hf & _)]; [done|].
  simpl in Hf. apply negb_false_iff, String.eqb_eq in Hf. done.
Qed.

Lemma window_length_witness :
  get_time_range util_spec sample_now (PStr "202401150930") 60
    = Ok (instant_of 2024 1 15 9 30, instant_of 2024 1 15 10 30) /\
  instant_of 2024 1 15 10 30 - instant_of 2024 1 15 9 30 = 60 * us_per_minute.
Proof.
  assert (H : get_time_range util_spec sample_now (PStr "202401150930") 60
    = Ok (instant_of 2024 1 15 9 30, instant_of 2024 1 15 10 30)) by (vm_compute; reflexivity).
  split; [exact H|]. exact (proj1 (window_length _ _ _ _ _ _ H)).
Defined.

(** C4 as stated fails: with an anchor and an interval of 0 minutes the window
    produced is empty, its end equal to its start. *)
Lemma empty_window :
  get_time_range util_spec sample_now (PStr "202401150930") 0
    = Ok (instant_of 2024 1 15 9 30, instant_of 2024 1 15 9 30) /\
  ~ instant_of 2024 1 15 9 30 > instant_of 2024 1 15 9 30.
Proof. split; [vm_compute; reflexivity | lia]. Qed.

(** C5, as amended: without an anchor ([None] or the empty string), and with
    [%] rounding the clock down to the interval boundary, the start is that
    boundary minus one interval and the end is the boundary itself. *)
Theorem no_anchor_window U now time_str interval s e :
  truthy time_str = false ->
  rdt_mod U = rdt_floor ->
  get_time_range U now time_str interval = Ok (s, e) ->
  let d := interval * us_per_minute in
  s = (now - now mod d) - d /\ e = s + d /\ e = now - now mod d.
Proof.
  intros Hf HU H. apply get_time_range_Ok in H as (He & Hs).
  destruct Hs as [(Ht & _)|(_ & b & Hb & Hs)]; [congruence|].
  rewrite HU in Hb. unfold rdt_floor in Hb. case_match; [discriminate|].
  injection Hb as <-. simpl. lia.
Qed.

Lemma no_anchor_window_witness :
  get_time_range util_spec sample_now PNone 60
    = Ok (instant_of 2024 1 15 8 0, instant_of 2024 1 15 9 0) /\
  instant_of 2024 1 15 8 0
    = (sample_now - sample_now mod (60 * us_per_minute)) - 60 * us_per_minute.
Proof.
  assert (H : get_time_range util_spec sample_now PNone 60
    = Ok (instant_of 2024 1 15 8 0, instant_of 2024 1 15 9 0)) by (vm_compute; reflexivity).
  split; [exact H|].
  exact (proj1 (no_anchor_window util_spec _ PNone _ _ _ eq_refl eq_refl H)).
Defined.

(** C5 as stated fails: at 09:47:12 with an interval of 60 minutes the start is
    08:00, not the boundary 09:00. *)
Lemma start_is_not_the_boundary :
  get_time_range util_spec sample_now PNone 60
    = Ok (instant_of 2024 1 15 8 0, instant_of 2024 1 15 9 0) /\
  sample_now - sample_now mod (60 * us_per_minute) = instant_of 2024 1 15 9 0 /\
  instant_of 2024 1 15 8 0 <> sample_now - sample_now mod (60 * us_per_minute).
Proof.
  split; [vm_compute; reflexivity|].
  split; [vm_compute; reflexivity | vm_compute; discriminate].
Qed.

(** ** MetricCatalogFetcher *)

Section Fetcher.
Context {St : Type} (W : world St).

(** One iteration of the loop sends one request and then returns or raises:
    reading the attribute [next_token] of the response raises. *)
Lemma get_metrics_loop_single fuel ns dims buf tok s :
  let req := listing_request ns dims tok in
  get_metrics_loop W (S fuel) ns dims buf tok s
  = Run (Some (single_fetch buf (list_metrics W req s).1))
        (list_metrics W req s).2 [EListMetrics req].
Proof.
  intros req. cbn [get_metrics_loop]. fold (listing_request ns dims tok). fold req.
  unfold bind, call, lift, single_fetch. 
  destruct (list_metrics W req s) as [[result|e] s'] eqn:E; cbn; [|done].
  destruct (py_get result "Metrics") as [v|e]; cbn; [|done].
  destruct (py_iter v) as [page|e]; cbn; [|done].
  destruct (py_get result "next_token") as [t|e]; cbn; [|done].
  destruct (truthy t); cbn; done.
Qed.

(** [get_metrics] in closed form: the client, then one request. *)
Lemma get_metrics_unfold fuel region ns dims s :
  get_metrics W fuel region ns dims s =
  match boto3_client W s with
  | Err e => Run (Some (Err e)) s []
  | Ok false => Run (Some (Err (Exception ("Failed to connect to region: " +:+ region)))) s []
  | Ok true =>
      match fuel with
      | O => Run None s []
      | S _ => let req := listing_request ns dims PNone in
               Run (Some (single_fetch [] (list_metrics W req s).1))
                   (list_metrics W req s).2 [EListMetrics req]
      end
  end.
Proof.
  unfold get_metrics, bind, reads. cbn.
  destruct (boto3_client W s) as [[|]|e]; cbn; [|done..].
  destruct fuel as [|fuel]; [done|].
  rewrite get_metrics_loop_single. done.
Qed.

Lemma get_metrics_events fuel region ns dims s :
  Forall (fun e => is_listing_event e = true) (events (get_metrics W fuel region ns dims s)).
Proof.
  rewrite get_metrics_unfold.
  destruct (boto3_client W s) as [[|]|e]; [destruct fuel|..]; cbn; repeat constructor.
Qed.

(** Whatever the provider answers, [get_metrics] sends at most one request. *)
Lemma get_metrics_single_request fuel region ns dims s :
  (length (events (get_metrics W fuel region ns dims s)) <= 1)%nat.
Proof.
  rewrite get_metrics_unfold.
  destruct (boto3_client W s) as [[|]|e]; [destruct fuel|..]; cbn; lia.
Qed.

End Fetcher.

(** C1, at a provider with two pages and a token ['NextToken'] on the first:
    [get_metrics] returns the first page only, after a single request. *)
Theorem get_metrics_stops_after_first_page :
  get_metrics (scripted two_pages) 2 "us-east-1" (PStr "AWS/EC2") PNone tt
  = Run (Some (Ok [cpu])) tt
        [EListMetrics {| Namespace := PStr "AWS/EC2"; Dimensions := PNone;
                         NextToken := None |}].
Proof. vm_compute. reflexivity. Qed.

(** With the token under ['next_token'] the stop test passes, and reading the
    attribute [next_token] of the response, a dict, raises. *)
Example get_metrics_raises_on_lower_case_token :
  get_metrics lower_case_token 2 "us-east-1" (PStr "AWS/EC2") PNone tt
  = Run (Some (Err (AttributeError "next_token"))) tt
        [EListMetrics {| Namespace := PStr "AWS/EC2"; Dimensions := PNone;
                         NextToken := None |}].
Proof. vm_compute. reflexivity. Qed.

(** ** QueryBatchBuilder *)

Lemma append_nil_l x : "" +:+ x = x.
Proof. reflexivity. Qed.

Lemma append_cons c a x : String c a +:+ x = String c (a +:+ x).
Proof. reflexivity. Qed.

Lemma all_digits_string_of_uint d : all_digits (NilEmpty.string_of_uint d) = true.
Proof. induction d; simpl; auto. Qed.

Lemma all_digits_str_of_nat n : all_digits (str_of_nat n) = true.
Proof. apply all_digits_string_of_uint. Qed.

(** Decimal notation tells numbers apart. *)
Lemma str_of_nat_inj i j : str_of_nat i = str_of_nat j -> i = j.
Proof.
  unfold str_of_nat. intros H. apply Unsigned.to_uint_inj.
  apply (f_equal NilEmpty.uint_of_string) in H.
  rewrite !NilEmpty.usu in H. congruence.
Qed.

Lemma ends_with_digit_tail c s : ends_with_digit (String c s) = false -> ends_with_digit s = false.
Proof. destruct s; simpl; auto. Qed.

Lemma all_digits_prefix_ends s y :
  s <> "" -> all_digits (s +:+ y) = true -> ends_with_digit s = true.
Proof.
  induction s as [|c s IH]; [done|]. intros _ H. rewrite append_cons in H. cbn [all_digits] in H.
  apply andb_true_iff in H as [Hc H].
  destruct s as [|c' s]; [exact Hc|]. 
  change (ends_with_digit (String c' s) = true). apply IH; [done|exact H].
Qed.

(** A string that does not end in a digit, followed by digits, splits in one
    way only. *)
Lemma digit_suffix_inj a b x y :
  ends_with_digit a = false -> ends_with_digit b = false ->
  all_digits x = true -> all_digits y = true ->
  a +:+ x = b +:+ y -> a = b /\ x = y.
Proof.
  revert b. induction a as [|c a IH]; intros [|c' b] Ha Hb Hx Hy E.
  - done.
  - rewrite ?append_nil_l, ?append_cons in E. subst x.
    rewrite (all_digits_prefix_ends (String c' b) y) in Hb; [done..|exact Hx].
  - rewrite ?append_nil_l, ?append_cons in E. subst y.
    rewrite (all_digits_prefix_ends (String c a) x) in Ha; [done..|exact Hy].
  - rewrite ?append_nil_l, ?append_cons in E. injection E as -> E.
    destruct (IH b) as [-> ->]; eauto using ends_with_digit_tail.
Qed.

Lemma id_inj s s' i j :
  ends_with_digit (lower s) = false -> ends_with_digit (lower s') = false ->
  lower s +:+ str_of_nat i = lower s' +:+ str_of_nat j -> lower s = lower s' /\ i = j.
Proof.
  intros Hs Hs' E.
  destruct (digit_suffix_inj _ _ _ _ Hs Hs' (all_digits_str_of_nat i) (all_digits_str_of_nat j) E)
    as [? ?%str_of_nat_inj]. done.
Qed.

Lemma bind_singleton_fmap {A B} (f : A -> B) (l : list A) : (x ← l; [f x]) = f <$> l.
Proof. induction l as [|x l IH]; [done|]. rewrite bind_cons, IH. done. Qed.

Lemma batch_from_nil k stats p : batch_from k [] stats p = [].
Proof. done. Qed.

Lemma batch_from_cons k m ms stats p :
  batch_from k (m :: ms) stats p
  = ((fun stat => descriptor stat k m p) <$> stats) ++ batch_from (S k) ms stats p.
Proof.
  unfold batch_from. cbn [enumerate_from]. rewrite bind_cons.
  by rewrite bind_singleton_fmap.
Qed.

Lemma build_metric_data_from metrics stats p :
  build_metric_data metrics stats p = batch_from 0 metrics stats p.
Proof. done. Qed.

Lemma batch_from_length k ms stats p :
  length (batch_from k ms stats p) = (length ms * length stats)%nat.
Proof.
  revert k. induction ms as [|m ms IH]; intros k; [done|].
  rewrite batch_from_cons, length_app, length_fmap, IH. simpl. lia.
Qed.

Lemma batch_from_elem q k ms stats p :
  q ∈ batch_from k ms stats p ->
  exists stat i m, stat ∈ stats /\ (k <= i)%nat /\ m ∈ ms /\ q = descriptor stat i m p.
Proof.
  revert k. induction ms as [|m ms IH]; intros k.
  - rewrite batch_from_nil. by intros ?%elem_of_nil.
  - rewrite batch_from_cons, elem_of_app, list_elem_of_fmap.
    intros [(stat & -> & Hs)|H].
    + exists stat, k, m. repeat split; [done|lia|left].
    + apply IH in H as (stat & i & m' & ? & ? & ? & ->).
      exists stat, i, m'. repeat split; [done|lia|by right].
Qed.

(** The ids of a batch are pairwise distinct under the two conditions on the
    statistics. *)
Lemma batch_from_ids_NoDup k ms stats p :
  NoDup (lower <$> stats) ->
  Forall (fun s => ends_with_digit (lower s) = false) stats ->
  NoDup (descriptor_ids (batch_from k ms stats p)).
Proof.
  intros Hnd Hdig. revert k. unfold descriptor_ids.
  induction ms as [|m ms IH]; intros k; [constructor|].
  rewrite batch_from_cons, fmap_app. apply NoDup_app. split; [|split].
  - rewrite <- list_fmap_compose.
    assert (E : ((fun q => py_getitem q "Id") ∘ (fun stat => descriptor stat k m p))
                <$> stats
                = (fun l => Ok (PStr (l +:+ str_of_nat k))) <$> (lower <$> stats)).
    { rewrite <- list_fmap_compose. done. }
    rewrite E. apply NoDup_fmap_2_strong; [|done].
    rewrite Forall_forall in Hdig.
    intros a b (s & -> & Hs)%list_elem_of_fmap (s' & -> & Hs')%list_elem_of_fmap [= H].
    apply id_inj in H as [H _]; auto.
  - intros x Hx Hx'.
    apply list_elem_of_fmap in Hx as (q & -> & Hq).
    apply list_elem_of_fmap in Hq as (s & -> & Hs).
    apply list_elem_of_fmap in Hx' as (q' & E & Hq').
    apply batch_from_elem in Hq' as (s' & i & m' & Hs' & Hi & _ & ->).
    cbn in E. injection E as E.
    rewrite Forall_forall in Hdig.
    apply id_inj in E as [_ ->]; [lia|auto..].
  - apply IH.
Qed.

Lemma descriptor_metric stat i m p : metric_stat "Metric" (descriptor stat i m p) = Ok m.
Proof. reflexivity. Qed.

Lemma descriptor_period stat i m p : metric_stat "Period" (descriptor stat i m p) = Ok (PInt p).
Proof. reflexivity. Qed.

Lemma descriptor_stat stat i m p : metric_stat "Stat" (descriptor stat i m p) = Ok (PStr stat).
Proof. reflexivity. Qed.

Lemma build_metric_data_descriptors metrics stats p :
  Forall is_descriptor (build_metric_data metrics stats p).
Proof.
  apply Forall_forall. intros q (stat & i & m & _ & _ & _ & ->)%batch_from_elem.
  exists m. apply descriptor_metric.
Qed.

(** C3, as amended: the batch has [M * S] descriptors, each with the period
    given; its ids are pairwise distinct when the statistics are ASCII
    strings that, in lower case, are pairwise distinct and none of which
    ends in a decimal digit. *)
Theorem batch_cardinality_period_ids metrics statistics_list period_in_sec :
  let batch := build_metric_data metrics statistics_list period_in_sec in
  length batch = (length metrics * length statistics_list)%nat /\
  Forall (fun q => metric_stat "Period" q = Ok (PInt period_in_sec)) batch /\
  (Forall (fun s => is_ascii s = true) statistics_list ->
   NoDup (lower <$> statistics_list) ->
   Forall (fun s => ends_with_digit (lower s) = false) statistics_list ->
   NoDup (descriptor_ids batch)).
Proof.
  intros batch. subst batch. rewrite build_metric_data_from. split; [|split].
  - apply batch_from_length.
  - apply Forall_forall. intros q (stat & i & m & _ & _ & _ & ->)%batch_from_elem.
    apply descriptor_period.
  - intros _. apply batch_from_ids_NoDup.
Qed.

Lemma batch_cardinality_period_ids_witness :
  length (build_metric_data [cpu; disk] ["Average"; "Sum"] 60) = 4%nat /\
  NoDup (descriptor_ids (build_metric_data [cpu; disk] ["Average"; "Sum"] 60)).
Proof.
  destruct (batch_cardinality_period_ids [cpu; disk] ["Average"; "Sum"] 60)
    as (Hlen & _ & Hids).
  split; [exact Hlen|]. apply Hids.
  - repeat constructor.
  - apply NoDup_cons. split; [|apply NoDup_singleton].
    intros [=]%list_elem_of_singleton.
  - repeat constructor.
Defined.

(** A statistic with a letter outside ASCII is not covered by the statement
    above: Python lowers such letters too, [lower] keeps them. *)
Example non_ascii_statistic_is_excluded :
  is_ascii "É" = false /\ lower "É" = "É".
Proof. split; vm_compute; reflexivity. Qed.

(** C3 as stated fails: a statistic listed twice gives two descriptors the
    same id. *)
Lemma repeated_statistic_repeats_id :
  ~ NoDup (descriptor_ids (build_metric_data [cpu] ["Sum"; "Sum"] 60)).
Proof.
  vm_compute. intros H. apply NoDup_cons in H as [H _]. apply H. left.
Qed.

(** Distinct statistics collide too when one ends in a digit: ["p" + "10"] and
    ["p1" + "0"]. *)
Example digit_suffix_collides :
  descriptor_ids (build_metric_data eleven_metrics ["p"; "p1"] 60) !! 1%nat
    = Some (Ok (PStr "p10")) /\
  descriptor_ids (build_metric_data eleven_metrics ["p"; "p1"] 60) !! 20%nat
    = Some (Ok (PStr "p10")).
Proof. split; vm_compute; reflexivity. Qed.

(** ** MetricsDataClient *)

Lemma correlate_entry_Ok batch i r rec :
  correlate_entry batch (i, r) = Ok rec <->
  exists q m, batch !! i = Some q /\ metric_stat "Metric" q = Ok m
              /\ rec = PDict [("Data", r); ("Metric", m)].
Proof.
  unfold correlate_entry, list_getitem, metric_stat. split.
  - destruct (batch !! i) as [q|]; cbn; [|done].
    destruct (py_getitem q "MetricStat") as [ms|] eqn:E1; cbn; [|done].
    destruct (py_getitem ms "Metric") as [m|] eqn:E2; cbn; [|done].
    intros [= <-]. exists q, m. rewrite E1. done.
  - intros (q & m & -> & H & ->). cbn.
    destruct (py_getitem q "MetricStat") as [ms|]; cbn in *; [|done].
    by rewrite H.
Qed.

Lemma correlate_entry_out_of_range batch i r :
  (length batch <= i)%nat -> correlate_entry batch (i, r) = Err IndexError.
Proof.
  intros H. unfold correlate_entry, list_getitem.
  by rewrite (lookup_ge_None_2 batch i H).
Qed.

(** Entries whose positions all fall inside the batch correlate, one record
    each. *)
Lemma try_map_enumerate_total batch k rs :
  Forall is_descriptor batch -> (k + length rs <= length batch)%nat ->
  exists recs, try_map (correlate_entry batch) (enumerate_from k rs) = Ok recs
               /\ length recs = length rs.
Proof.
  intros Hb. revert k. induction rs as [|r rs IH]; intros k Hk.
  - by exists [].
  - cbn [enumerate_from try_map]. cbn [length] in Hk.
    destruct (lookup_lt_is_Some_2 batch k) as [q Hq]; [lia|].
    destruct (proj1 (Forall_forall _ _) Hb q) as [m Hm]; [by eapply list_elem_of_lookup_2|].
    assert (E : correlate_entry batch (k, r) = Ok (PDict [("Data", r); ("Metric", m)])).
    { apply correlate_entry_Ok. eauto. }
    rewrite E. cbn. destruct (IH (S k)) as (recs & -> & Hl); [lia|].
    cbn. eexists. split; [done|]. cbn. by rewrite Hl.
Qed.

(** Entries that reach past the end of the batch raise [IndexError]. *)
Lemma try_map_enumerate_overflow batch k rs :
  Forall is_descriptor batch ->
  (k <= length batch)%nat -> (length batch < k + length rs)%nat ->
  try_map (correlate_entry batch) (enumerate_from k rs) = Err IndexError.
Proof.
  intros Hb. revert k. induction rs as [|r rs IH]; intros k Hk Hlt.
  - cbn in Hlt. lia.
  - cbn [enumerate_from try_map]. cbn [length] in Hlt.
    destruct (decide (k = length batch)) as [->|Hne].
    + by rewrite correlate_entry_out_of_range.
    + destruct (lookup_lt_is_Some_2 batch k) as [q Hq]; [lia|].
      destruct (proj1 (Forall_forall _ _) Hb q) as [m Hm]; [by eapply list_elem_of_lookup_2|].
      assert (E : correlate_entry batch (k, r) = Ok (PDict [("Data", r); ("Metric", m)])).
      { apply correlate_entry_Ok. eauto. }
      rewrite E. cbn. rewrite IH; [done|lia..].
Qed.

Lemma try_map_enumerate_lookup batch k rs recs :
  try_map (correlate_entry batch) (enumerate_from k rs) = Ok recs ->
  forall i r, rs !! i = Some r ->
    exists q m, batch !! (k + i)%nat = Some q /\ metric_stat "Metric" q = Ok m
                /\ recs !! i = Some (PDict [("Data", r); ("Metric", m)]).
Proof.
  revert k recs. induction rs as [|r0 rs IH]; intros k recs H i r Hi; [done|].
  cbn [enumerate_from try_map] in H.
  destruct (correlate_entry batch (k, r0)) as [rec|] eqn:E; cbn in H; [|done].
  destruct (try_map (correlate_entry batch) (enumerate_from (S k) rs)) as [recs'|] eqn:E';
    cbn in H; [|done].
  injection H as <-. destruct i as [|i].
  - injection Hi as ->. apply correlate_entry_Ok in E as (q & m & ? & ? & ->).
    exists q, m. by rewrite Nat.add_0_r.
  - destruct (IH _ _ E' i r Hi) as (q & m & ? & ? & ?).
    exists q, m. by rewrite Nat.add_succ_r.
Qed.

(** C10: when the provider returns at most as many entries as descriptors
    were submitted, every index is in bounds and the correlation yields one
    record per entry; with more entries it raises [IndexError]. *)
Theorem correlate_in_bounds metrics statistics_list period_in_sec results :
  let batch := build_metric_data metrics statistics_list period_in_sec in
  ((length results <= length batch)%nat ->
   exists records, correlate batch results = Ok records
                   /\ length records = length results) /\
  ((length batch < length results)%nat -> correlate batch results = Err IndexError).
Proof.
  intros batch. pose proof (build_metric_data_descriptors metrics statistics_list period_in_sec).
  split; intros Hlen.
  - apply try_map_enumerate_total; [done|]. cbn. lia.
  - apply try_map_enumerate_overflow; [done|lia|]. cbn. lia.
Qed.

Lemma correlate_in_bounds_witness :
  (exists records,
     correlate (build_metric_data [cpu] ["Average"; "Sum"] 60) [PStr "r0"; PStr "r1"]
       = Ok records /\ length records = 2%nat) /\
  correlate (build_metric_data [cpu] ["Average"; "Sum"] 60)
            [PStr "r0"; PStr "r1"; PStr "r2"] = Err IndexError.
Proof.
  split.
  - apply (proj1 (correlate_in_bounds [cpu] ["Average"; "Sum"] 60 [PStr "r0"; PStr "r1"])).
    cbn. lia.
  - apply (proj2 (correlate_in_bounds [cpu] ["Average"; "Sum"] 60
                    [PStr "r0"; PStr "r1"; PStr "r2"])).
    cbn. lia.
Defined.

(** Where the correlation succeeds, the record at a position pairs the entry
    the provider returned there with the metric of the descriptor submitted
    at the same position. *)
Lemma correlate_positional batch results records :
  correlate batch results = Ok records ->
  forall i r, results !! i = Some r ->
    exists q m, batch !! i = Some q /\ metric_stat "Metric" q = Ok m
                /\ records !! i = Some (PDict [("Data", r); ("Metric", m)]).
Proof.
  intros H i r Hi.
  exact (try_map_enumerate_lookup batch 0 results records H i r Hi).
Qed.

(** The correlation reads the batch through the metrics of its descriptors
    only. *)
Lemma correlate_entry_metric batch i r :
  correlate_entry batch (i, r)
  = match (metric_stat "Metric" <$> batch) !! i with
    | Some (Ok m) => Ok (PDict [("Data", r); ("Metric", m)])
    | Some (Err e) => Err e
    | None => Err IndexError
    end.
Proof.
  unfold correlate_entry, list_getitem, metric_stat. rewrite list_lookup_fmap.
  destruct (batch !! i) as [q|]; cbn; [|reflexivity].
  destruct (py_getitem q "MetricStat") as [ms|e]; cbn; [|reflexivity].
  destruct (py_getitem ms "Metric") as [m|e]; reflexivity.
Qed.

Lemma correlate_ext batch batch' results :
  metric_stat "Metric" <$> batch = metric_stat "Metric" <$> batch' ->
  correlate batch results = correlate batch' results.
Proof.
  intros E. unfold correlate, enumerate. generalize 0%nat.
  induction results as [|r rs IH]; intros k; [reflexivity|].
  cbn [enumerate_from try_map]. rewrite !correlate_entry_metric, E, IH. reflexivity.
Qed.

Lemma batch_from_metrics k ms stats p :
  metric_stat "Metric" <$> batch_from k ms stats p
  = (m ← ms; replicate (length stats) (Ok m)).
Proof.
  revert k. induction ms as [|m ms IH]; intros k; [reflexivity|].
  rewrite batch_from_cons, fmap_app, IH, bind_cons. f_equal.
  rewrite <- list_fmap_compose. clear. induction stats as [|s stats IH]; [reflexivity|].
  cbn. f_equal. exact IH.
Qed.

(** The records do not depend on which statistics were asked for, nor on the
    period: two batches over the same catalog with as many statistics
    correlate a response to the same records. *)
Lemma correlate_ignores_statistics metrics stats stats' p p' results :
  length stats = length stats' ->
  correlate (build_metric_data metrics stats p) results
  = correlate (build_metric_data metrics stats' p') results.
Proof.
  intros E. apply correlate_ext.
  rewrite (build_metric_data_from metrics stats p), (build_metric_data_from metrics stats' p').
  rewrite !batch_from_metrics, E. reflexivity.
Qed.


(** C2, at one metric and the statistics [Average] and [Sum], the provider
    answering in order: both records carry the metric and the datapoints,
    neither carries a statistic. *)
Theorem get_data_records_carry_no_statistic :
  outcome (get_data (scripted one_page) [cpu] ["Average"; "Sum"] 0 3600000000 60 tt)
  = Some (Ok [PDict [("Data", PDict [("Id", PStr "average0"); ("Values", PList [])]);
                     ("Metric", cpu)];
              PDict [("Data", PDict [("Id", PStr "sum0"); ("Values", PList [])]);
                     ("Metric", cpu)]]).
Proof. vm_compute. reflexivity. Qed.

Section Client.
Context {St : Type} (W : world St).

(** [get_data] in closed form: the client, the period, one batched query and
    the correlation of its response. *)
Lemma get_data_unfold metrics stats start end_ p s :
  get_data W metrics stats start end_ p s =
  match boto3_client W s with
  | Err e => Run (Some (Err e)) s []
  | Ok false => Run (Some (Err (Exception "Failed to connect"))) s []
  | Ok true =>
      match timedelta_minutes p with
      | Err e => Run (Some (Err e)) s []
      | Ok _ =>
          let batch := build_metric_data metrics stats p in
          let req := {| MetricDataQueries := batch; StartTime := start; EndTime := end_ |} in
          Run (Some (data ← (get_metric_data W req s).1;
                     results ← py_getitem data "MetricDataResults";
                     items ← py_iter results;
                     correlate batch items))
              (get_metric_data W req s).2 [EGetMetricData req]
      end
  end.
Proof.
  unfold get_data, bind, reads. cbn.
  destruct (boto3_client W s) as [[|]|e]; cbn; [|done..].
  destruct (timedelta_minutes p) as [d|e]; cbn; [|done].
  unfold call. destruct (get_metric_data W _ s) as [[data|e] s']; cbn; [|done].
  match goal with |- context [(?a ≫= ?k)] => destruct (a ≫= k) end; done.
Qed.

Lemma get_data_events metrics stats start end_ p s :
  Forall (fun e => is_query_event e = true) (events (get_data W metrics stats start end_ p s)).
Proof.
  rewrite get_data_unfold.
  destruct (boto3_client W s) as [[|]|e]; [destruct (timedelta_minutes p)|..];
    cbn; repeat constructor.
Qed.


End Client.



(** ** The entry point *)

Section EntryPoint.
Context {St : Type} (U : util_module) (W : world St).

(** [main] phase by phase. *)
Lemma main_unfold fuel opts s :
  main U W fuel opts s =
  match get_time_range U (clock W s) (time opts) (interval opts) with
  | Err e => Run (Some (Err e)) s []
  | Ok (start, end_) =>
      let r1 := get_metrics W fuel (region opts) (PStr (namespace opts)) (dimensions opts) s in
      match outcome r1 with
      | None => Run None (final r1) (events r1)
      | Some (Err e) => Run (Some (Err e)) (final r1) (events r1)
      | Some (Ok metrics) =>
          if check opts
          then Run (Some (Ok 0)) (final r1)
                   (events r1 ++ planned_output start end_ (period opts) metrics)
          else
            let r2 := get_data W metrics ["Average"; "Sum"] start end_ (period opts) (final r1) in
            match outcome r2 with
            | None => Run None (final r2) (events r1 ++ events r2)
            | Some (Err e) => Run (Some (Err e)) (final r2) (events r1 ++ events r2)
            | Some (Ok data) =>
                match filename opts with
                | None => Run (Some (Err TypeError)) (final r2) (events r1 ++ events r2)
                | Some f =>
                    let r3 := main_tail W f data (final r2) in
                    Run (outcome r3) (final r3) (events r1 ++ events r2 ++ events r3)
                end
            end
      end
  end.
Proof.
  unfold main.
  destruct (get_time_range U (clock W s) (time opts) (interval opts))
    as [[start end_]|e] eqn:Htr.
  2: { apply bind_Err. unfold reads. by rewrite Htr. }
  erewrite bind_Ok by (unfold reads; by rewrite Htr). cbn [app].
  destruct (get_metrics W fuel (region opts) (PStr (namespace opts)) (dimensions opts) s)
    as [[[metrics|e]|] s1 evs1] eqn:Hgm; cbn [outcome final events].
  2: { erewrite bind_Err by exact Hgm. done. }
  2: { erewrite bind_None by exact Hgm. done. }
  erewrite bind_Ok by exact Hgm. cbn [outcome final events].
  destruct (check opts).
  - do 3 (erewrite bind_Ok by reflexivity; cbn [outcome final events]).
    erewrite bind_Ok by apply for_each_emit.
    unfold planned_output, ret. cbn [outcome final events app].
    rewrite app_nil_r. done.
  - destruct (get_data W metrics ["Average"; "Sum"] start end_ (period opts) s1)
      as [[[data|e]|] s2 evs2] eqn:Hgd; cbn [outcome final events].
    2: { erewrite bind_Err by exact Hgd. done. }
    2: { erewrite bind_None by exact Hgd. done. }
    erewrite bind_Ok by exact Hgd. cbn [outcome final events].
    destruct (filename opts) as [f|]; [|unfold raise; cbn; by rewrite app_nil_r].
    unfold main_tail, bind, call, emit, ret.
    destruct (open_wb W f s2) as [[[]|e] s3]; cbn [outcome final events fst snd]; [|done].
    destruct (pickle_dump W (PList data) s3) as [[[]|e] s4]; cbn [outcome final events fst snd];
      done.
Qed.

(** Events of a kind that is not a file operation contain no file operation. *)
Lemma no_file_event (P : event -> bool) evs :
  (forall e, P e = true -> is_file_event e = false) ->
  Forall (fun e => P e = true) evs -> existsb is_file_event evs = false.
Proof.
  intros HP. induction 1 as [|e evs He _ IH]; [reflexivity|].
  cbn [existsb]. rewrite IH, (HP e He). reflexivity.
Qed.

Lemma listing_not_file e : is_listing_event e = true -> is_file_event e = false.
Proof. destruct e; cbn; congruence. Qed.

Lemma query_not_file e : is_query_event e = true -> is_file_event e = false.
Proof. destruct e; cbn; congruence. Qed.

Lemma print_not_file e : is_print_event e = true -> is_file_event e = false.
Proof. destruct e; cbn; congruence. Qed.

Lemma planned_output_prints start end_ p metrics :
  Forall (fun e => is_print_event e = true) (planned_output start end_ p metrics).
Proof.
  unfold planned_output. apply Forall_app. split.
  - repeat constructor.
  - apply Forall_fmap, Forall_true. intros q. reflexivity.
Qed.

Lemma get_metrics_no_file fuel region ns dims s :
  existsb is_file_event (events (get_metrics W fuel region ns dims s)) = false.
Proof. apply (no_file_event _ _ listing_not_file), get_metrics_events. Qed.

Lemma get_data_no_file metrics stats start end_ p s :
  existsb is_file_event (events (get_data W metrics stats start end_ p s)) = false.
Proof. apply (no_file_event _ _ query_not_file), get_data_events. Qed.

Lemma main_tail_dump f data s d :
  EDump d ∈ events (main_tail W f data s) -> d = PList data.
Proof.
  unfold main_tail. destruct (open_wb W f s) as [[[]|e] s1]; cbn [fst snd].
  - destruct (pickle_dump W (PList data) s1) as [[[]|e] s2]; cbn [fst snd events];
      intros H; repeat (apply elem_of_cons in H as [H|H]; try discriminate H);
      solve [by injection H | by apply elem_of_nil in H].
  - by intros [=]%list_elem_of_singleton.
Qed.

(** C7: an exception of the window resolution, of the discovery or of the
    batched query ends [main] with that exception and no file event; a run
    that opens or writes the file has passed all three phases, and what it
    dumps is the list of records [get_data] returned. *)
Theorem snapshot_only_after_all_phases fuel opts s :
  let r := main U W fuel opts s in
  let stage1 := get_time_range U (clock W s) (time opts) (interval opts) in
  let stage2 := get_metrics W fuel (region opts) (PStr (namespace opts)) (dimensions opts) s in
  (forall e, stage1 = Err e -> r = Run (Some (Err e)) s []) /\
  (forall start end_ e, stage1 = Ok (start, end_) -> outcome stage2 = Some (Err e) ->
     outcome r = Some (Err e) /\ existsb is_file_event (events r) = false) /\
  (forall start end_ metrics e, stage1 = Ok (start, end_) ->
     outcome stage2 = Some (Ok metrics) ->
     outcome (get_data W metrics ["Average"; "Sum"] start end_ (period opts) (final stage2))
       = Some (Err e) ->
     check opts = false ->
     outcome r = Some (Err e) /\ existsb is_file_event (events r) = false) /\
  (existsb is_file_event (events r) = true ->
   check opts = false /\
   exists start end_ metrics data,
     stage1 = Ok (start, end_) /\ outcome stage2 = Some (Ok metrics) /\
     outcome (get_data W metrics ["Average"; "Sum"] start end_ (period opts) (final stage2))
       = Some (Ok data) /\
     forall d, EDump d ∈ events r -> d = PList data).
Proof.
  cbv zeta. rewrite main_unfold.
  pose proof (get_metrics_no_file fuel (region opts) (PStr (namespace opts))
                (dimensions opts) s) as H1.
  pose proof (get_metrics_events W fuel (region opts) (PStr (namespace opts))
                (dimensions opts) s) as L1.
  destruct (get_time_range U (clock W s) (time opts) (interval opts))
    as [[start end_]|e1] eqn:E1.
  2: { split; [intros e [= <-]; reflexivity|].
       split; [intros ? ? ? [=]|]. split; [intros ? ? ? ? [=]|]. intros [=]. }
  cbv zeta.
  destruct (get_metrics W fuel (region opts) (PStr (namespace opts)) (dimensions opts) s)
    as [o1 s1 evs1] eqn:E2.
  cbn [outcome final events] in *.
  split; [intros e [=]|].
  destruct o1 as [[metrics|e2]|].
  - split; [intros ? ? ? _ [=]|].
    pose proof (get_data_no_file metrics ["Average"; "Sum"] start end_ (period opts) s1)
      as H2.
    pose proof (get_data_events W metrics ["Average"; "Sum"] start end_ (period opts) s1)
      as L2.
    destruct (get_data W metrics ["Average"; "Sum"] start end_ (period opts) s1)
      as [o2 s2 evs2] eqn:E3.
    cbn [outcome final events] in *.
    destruct (check opts).
    + split; [intros ? ? ? ? _ _ _ [=]|].
      cbn [events]. rewrite existsb_app, H1.
      rewrite (no_file_event _ _ print_not_file (planned_output_prints _ _ _ _)).
      intros [=].
    + split.
      * intros start' end' metrics' e [= <- <-] [= <-]. rewrite E3. cbn [outcome].
        intros -> _. cbn [outcome events]. split; [reflexivity|].
        rewrite existsb_app, H1, H2. reflexivity.
      * destruct o2 as [[data|e3]|]; cbn [events];
          try (rewrite existsb_app, H1, H2; intros [=]).
        destruct (filename opts) as [f|]; cbn [events];
          [|rewrite existsb_app, H1, H2; intros [=]].
        intros _. split; [reflexivity|].
        exists start, end_, metrics, data. rewrite E3. repeat split.
        intros d. rewrite !elem_of_app. intros [Hd|[Hd|Hd]].
        -- apply (proj1 (Forall_forall _ _) L1) in Hd. discriminate Hd.
        -- apply (proj1 (Forall_forall _ _) L2) in Hd. discriminate Hd.
        -- apply main_tail_dump in Hd. exact Hd.
  - split.
    + intros ? ? e [= <- <-] [= <-]. cbn [outcome events]. split; [reflexivity|exact H1].
    + split; [intros ? ? ? ? _ [=]|]. cbn [events]. rewrite H1. intros [=].
  - split; [intros ? ? ? _ [=]|]. split; [intros ? ? ? ? _ [=]|].
    cbn [events]. rewrite H1. intros [=].
Qed.

(** C8: in check mode every event of a run is a listing request of the
    discovery or a print, none is a batched query or a file operation; after
    a successful discovery the run is the events of the discovery followed
    by the printed plan (the window, the period and the pairs of metric and
    statistic), and returns 0. *)
Theorem check_mode_only_prints fuel opts s :
  check opts = true ->
  let r := main U W fuel opts s in
  Forall (fun e => (is_listing_event e || is_print_event e = true)
                   /\ is_query_event e = false /\ is_file_event e = false)
         (events r) /\
  (forall start end_ metrics s1 evs1,
     get_time_range U (clock W s) (time opts) (interval opts) = Ok (start, end_) ->
     get_metrics W fuel (region opts) (PStr (namespace opts)) (dimensions opts) s
       = Run (Some (Ok metrics)) s1 evs1 ->
     r = Run (Some (Ok 0)) s1 (evs1 ++ planned_output start end_ (period opts) metrics)).
Proof.
  intros Hc r. subst r. rewrite main_unfold, Hc. split.
  - destruct (get_time_range U (clock W s) (time opts) (interval opts))
      as [[start end_]|e]; [|constructor].
    cbv zeta.
    pose proof (get_metrics_events W fuel (region opts) (PStr (namespace opts))
                  (dimensions opts) s) as H1.
    destruct (get_metrics W fuel (region opts) (PStr (namespace opts)) (dimensions opts) s)
      as [o1 s1 evs1].
    cbn [outcome final events] in *.
    assert (H1' : Forall (fun e => (is_listing_event e || is_print_event e = true)
                                   /\ is_query_event e = false /\ is_file_event e = false)
                         evs1).
    { eapply Forall_impl; [exact H1|]. intros [] He; cbn in He |- *; auto; discriminate. }
    destruct o1 as [[metrics|e]|]; cbn [events]; [|exact H1'..].
    apply Forall_app. split; [exact H1'|].
    eapply Forall_impl; [apply planned_output_prints|].
    intros [] He; cbn in He |- *; auto; discriminate.
  - intros start end_ metrics s1 evs1 -> ->. reflexivity.
Qed.

(** C9: unless the client is falsy, [get_metrics] and [main] run the same for
    any two regions (requests carry no region, and [get_data] has no such
    parameter); with a falsy client [get_metrics] raises, the region in the
    message, and sends nothing. *)
Theorem region_only_in_message fuel region1 region2 ns dims opts s :
  (boto3_client W s <> Ok false ->
   get_metrics W fuel region1 ns dims s = get_metrics W fuel region2 ns dims s /\
   main U W fuel (with_region region1 opts) s
     = main U W fuel (with_region region2 opts) s) /\
  (boto3_client W s = Ok false ->
   forall r,
     get_metrics W fuel r ns dims s
     = Run (Some (Err (Exception ("Failed to connect to region: " +:+ r)))) s []).
Proof.
  split.
  - intros Hc.
    assert (E : forall ns' dims', get_metrics W fuel region1 ns' dims' s
                                  = get_metrics W fuel region2 ns' dims' s).
    { intros ns' dims'. rewrite !get_metrics_unfold.
      destruct (boto3_client W s) as [[|]|e]; [reflexivity|congruence|reflexivity]. }
    split; [apply E|]. rewrite !main_unfold.
    cbn [with_region time interval region namespace dimensions period check filename].
    rewrite E. reflexivity.
  - intros Hc r. rewrite get_metrics_unfold, Hc. reflexivity.
Qed.

End EntryPoint.

Lemma snapshot_only_after_all_phases_witness :
  check sample_options = false /\
  exists start end_ metrics data,
    get_time_range util_spec sample_now (PStr "202401150930") 60 = Ok (start, end_) /\
    outcome (get_metrics (scripted one_page) 2 "us-east-1" (PStr "AWS/EC2") PNone tt)
      = Some (Ok metrics) /\
    outcome (get_data (scripted one_page) metrics ["Average"; "Sum"] start end_ 60 tt)
      = Some (Ok data) /\
    forall d, EDump d ∈ events (main util_spec (scripted one_page) 2 sample_options tt) ->
              d = PList data.
Proof.
  apply (proj2 (proj2 (proj2
    (snapshot_only_after_all_phases util_spec (scripted one_page) 2 sample_options tt)))).
  vm_compute. reflexivity.
Defined.

Lemma check_mode_only_prints_witness :
  main util_spec (scripted two_pages) 2 check_options tt
  = Run (Some (Ok 0)) tt
      ([EListMetrics {| Namespace := PStr "AWS/EC2"; Dimensions := PNone;
                        NextToken := None |}]
       ++ planned_output (instant_of 2024 1 15 9 30) (instant_of 2024 1 15 10 30) 60 [cpu]).
Proof.
  apply (proj2 (check_mode_only_prints util_spec (scripted two_pages) 2 check_options tt
                  eq_refl)).
  - vm_compute. reflexivity.
  - vm_compute. reflexivity.
Defined.

Lemma region_only_in_message_witness :
  main util_spec (scripted one_page) 2 (with_region "us-east-1" sample_options) tt
  = main util_spec (scripted one_page) 2 (with_region "eu-west-3" sample_options) tt.
Proof.
  apply (proj1 (region_only_in_message util_spec (scripted one_page) 2
                  "us-east-1" "eu-west-3" PNone PNone sample_options tt)).
  discriminate.
Defined.

(** * Further properties *)

(** ** The window: what is produced and what is refused *)

(** [timedelta(minutes=m)] is accepted exactly when the days are in range. *)
Lemma timedelta_minutes_in_range m :
  - max_days <= m / 1440 <= max_days -> timedelta_minutes m = Ok (m * us_per_minute).
Proof.
  intros [H1 H2]. unfold timedelta_minutes.
  apply Z.leb_le in H1, H2. rewrite H1, H2. reflexivity.
Qed.

Lemma timedelta_minutes_out_of_range m :
  m / 1440 < - max_days \/ max_days < m / 1440 -> timedelta_minutes m = Err OverflowError.
Proof.
  intros H. unfold timedelta_minutes.
  destruct (- max_days <=? m / 1440) eqn:E1; [|reflexivity].
  destruct (m / 1440 <=? max_days) eqn:E2; [|reflexivity].
  apply Z.leb_le in E1, E2. lia.
Qed.

Lemma datetime_check_in_range t : 0 <= t < datetime_end -> datetime_check t = Ok t.
Proof.
  intros [H1 H2]. unfold datetime_check.
  apply Z.leb_le in H1. apply Z.ltb_lt in H2. rewrite H1, H2. reflexivity.
Qed.

Lemma datetime_check_out_of_range t :
  t < 0 \/ datetime_end <= t -> datetime_check t = Err OverflowError.
Proof.
  intros H. unfold datetime_check.
  destruct (0 <=? t) eqn:E1; [|reflexivity].
  destruct (t <? datetime_end) eqn:E2; [|reflexivity].
  apply Z.leb_le in E1. apply Z.ltb_lt in E2. lia.
Qed.

(** A string is truthy unless it is empty. *)
Lemma truthy_nonempty a : a <> "" -> truthy (PStr a) = true.
Proof.
  intros H. cbn. destruct (String.eqb_spec a ""); [contradiction|reflexivity].
Qed.

(** X1: a non-empty anchor that parses to [t], with an interval that
    [timedelta] accepts and an end within the years 1..9999, yields the
    window from [t] to [t] plus the interval. *)
Theorem anchored_window_produced U now a interval t :
  a <> "" -> strptime U a = Ok t ->
  - max_days <= interval / 1440 <= max_days ->
  0 <= t + interval * us_per_minute < datetime_end ->
  get_time_range U now (PStr a) interval = Ok (t, t + interval * us_per_minute).
Proof.
  intros Ha Hp Hd He. unfold get_time_range.
  rewrite (timedelta_minutes_in_range _ Hd). cbn [mbind result_bind].
  rewrite (truthy_nonempty _ Ha), Hp. cbn [mbind result_bind].
  unfold datetime_add. rewrite (datetime_check_in_range _ He). reflexivity.
Qed.

Lemma anchored_window_produced_witness :
  get_time_range util_spec sample_now (PStr "202401150930") 60
  = Ok (instant_of 2024 1 15 9 30, instant_of 2024 1 15 9 30 + 60 * us_per_minute).
Proof.
  apply (anchored_window_produced util_spec sample_now "202401150930" 60).
  - discriminate.
  - vm_compute. reflexivity.
  - vm_compute. split; discriminate.
  - vm_compute. split; [discriminate|reflexivity].
Defined.

(** X2: an interval of more than 999999999 days either way makes
    [get_time_range] raise [OverflowError], whatever the anchor: the
    interval is converted before the anchor is looked at. *)
Theorem interval_out_of_range U now time_str interval :
  interval / 1440 < - max_days \/ max_days < interval / 1440 ->
  get_time_range U now time_str interval = Err OverflowError.
Proof.
  intros H. unfold get_time_range.
  rewrite (timedelta_minutes_out_of_range _ H). reflexivity.
Qed.

Lemma interval_out_of_range_witness :
  get_time_range util_spec sample_now (PStr "not a date") 1440000000000 = Err OverflowError.
Proof.
  apply interval_out_of_range. right. vm_compute. reflexivity.
Defined.

(** X3: with an interval [timedelta] accepts, a non-empty anchor that fails
    to parse makes [get_time_range] raise the parse error, and one whose
    window would leave the years 1..9999 makes it raise [OverflowError]. *)
Theorem anchor_failures U now a interval :
  a <> "" -> - max_days <= interval / 1440 <= max_days ->
  (forall e, strptime U a = Err e -> get_time_range U now (PStr a) interval = Err e) /\
  (forall t, strptime U a = Ok t ->
     t + interval * us_per_minute < 0 \/ datetime_end <= t + interval * us_per_minute ->
     get_time_range U now (PStr a) interval = Err OverflowError).
Proof.
  intros Ha Hd. unfold get_time_range.
  rewrite (timedelta_minutes_in_range _ Hd). cbn [mbind result_bind].
  rewrite (truthy_nonempty _ Ha). split.
  - intros e ->. reflexivity.
  - intros t -> He. cbn [mbind result_bind]. unfold datetime_add.
    rewrite (datetime_check_out_of_range _ He). reflexivity.
Qed.

Lemma anchor_failures_witness :
  get_time_range util_spec sample_now (PStr "202402301200") 60 = Err ValueError /\
  get_time_range util_spec sample_now (PStr "999912312330") 60 = Err OverflowError.
Proof.
  split.
  - apply (proj1 (anchor_failures util_spec sample_now "202402301200" 60
                    ltac:(discriminate) ltac:(vm_compute; split; discriminate))).
    vm_compute. reflexivity.
  - apply (proj2 (anchor_failures util_spec sample_now "999912312330" 60
                    ltac:(discriminate) ltac:(vm_compute; split; discriminate))
             (instant_of 9999 12 31 23 30)).
    + vm_compute. reflexivity.
    + right. vm_compute. discriminate.
Defined.

(** X4: with a non-empty anchor the outcome depends neither on the clock nor
    on the operator [%]. *)
Theorem anchor_overrides_clock U U' now now' a interval :
  a <> "" -> strptime U a = strptime U' a ->
  get_time_range U now (PStr a) interval = get_time_range U' now' (PStr a) interval.
Proof.
  intros Ha Hp. unfold get_time_range. rewrite (truthy_nonempty _ Ha), Hp. reflexivity.
Qed.

Lemma anchor_overrides_clock_witness :
  get_time_range util_spec sample_now (PStr "202401150930") 60
  = get_time_range util_spec 0 (PStr "202401150930") 60.
Proof.
  apply anchor_overrides_clock; [discriminate|reflexivity].
Defined.

(** ** The catalog: one request *)

Lemma listing_request_first ns dims : listing_request ns dims PNone = first_request ns dims.
Proof. reflexivity. Qed.

(** An iteration returns exactly when the response is a dict whose
    ['Metrics'] can be listed and whose ['next_token'] is falsy. *)
Lemma single_fetch_Ok buf response l :
  single_fetch buf response = Ok l <->
  exists d page, response = Ok (PDict d)
                 /\ py_iter (default PNone (assoc "Metrics" d)) = Ok page
                 /\ truthy (default PNone (assoc "next_token" d)) = false
                 /\ l = buf ++ page.
Proof.
  unfold single_fetch. split.
  - destruct response as [result|e]; cbn [mbind result_bind]; [|discriminate].
    destruct result as [| | | | |d]; cbn [py_get mbind result_bind]; try discriminate.
    destruct (py_iter (default PNone (assoc "Metrics" d))) as [page|e] eqn:E;
      cbn [mbind result_bind]; [|discriminate].
    destruct (truthy (default PNone (assoc "next_token" d))) eqn:T; cbn [negb];
      [discriminate|].
    intros [= <-]. exists d, page. auto.
  - intros (d & page & -> & E & T & ->). cbn [py_get mbind result_bind].
    rewrite E. cbn [mbind result_bind]. rewrite T. reflexivity.
Qed.

Section FetcherExtras.
Context {St : Type} (W : world St).

(** X5: the [while True] loop of [get_metrics] ends within its first
    iteration: any positive fuel gives the run of fuel 1, and that run has
    an outcome. *)
Theorem get_metrics_one_iteration fuel region ns dims s :
  get_metrics W (S fuel) region ns dims s = get_metrics W 1 region ns dims s /\
  outcome (get_metrics W (S fuel) region ns dims s) <> None.
Proof.
  rewrite !get_metrics_unfold. split; [reflexivity|].
  destruct (boto3_client W s) as [[|]|e]; discriminate.
Qed.

(** X6: every request [get_metrics] sends carries the namespace and the
    dimensions it was given and no continuation token. *)
Theorem get_metrics_requests fuel region ns dims s :
  Forall (fun e => e = EListMetrics (first_request ns dims))
         (events (get_metrics W fuel region ns dims s)).
Proof.
  rewrite get_metrics_unfold.
  destruct (boto3_client W s) as [[|]|e]; [destruct fuel|..]; cbn; repeat constructor.
Qed.

(** X7: [get_metrics] returns a catalog exactly when the client is truthy,
    the response to the first request is a dict whose ['Metrics'] can be
    listed and whose ['next_token'] is absent or falsy; the catalog is that
    list. *)
Theorem get_metrics_returns_first_page fuel region ns dims s l :
  outcome (get_metrics W (S fuel) region ns dims s) = Some (Ok l) <->
  boto3_client W s = Ok true /\
  exists d, (list_metrics W (first_request ns dims) s).1 = Ok (PDict d)
            /\ py_iter (default PNone (assoc "Metrics" d)) = Ok l
            /\ truthy (default PNone (assoc "next_token" d)) = false.
Proof.
  rewrite get_metrics_unfold, listing_request_first. split.
  - destruct (boto3_client W s) as [[|]|e]; cbn [outcome]; try discriminate.
    intros [= H]. apply single_fetch_Ok in H as (d & page & E & Hp & Ht & ->).
    split; [reflexivity|]. exists d. auto.
  - intros (-> & d & E & Hp & Ht). cbn [outcome]. f_equal.
    apply single_fetch_Ok. exists d, l. auto.
Qed.

(** X8: with a truthy client, a response without ['Metrics'] makes
    [get_metrics] raise [TypeError], a response that is not a dict makes it
    raise [AttributeError], and an exception of the provider is passed on;
    in each case exactly one request was sent. *)
Theorem get_metrics_malformed_response fuel region ns dims s :
  boto3_client W s = Ok true ->
  let response := (list_metrics W (first_request ns dims) s).1 in
  let r := get_metrics W (S fuel) region ns dims s in
  (forall d, response = Ok (PDict d) -> assoc "Metrics" d = None ->
     outcome r = Some (Err TypeError)) /\
  (forall v, response = Ok v -> (forall d, v <> PDict d) ->
     outcome r = Some (Err (AttributeError "get"))) /\
  (forall e, response = Err e -> outcome r = Some (Err e)) /\
  events r = [EListMetrics (first_request ns dims)].
Proof.
  intros Hc response r. subst response r.
  rewrite get_metrics_unfold, listing_request_first, Hc. cbn [outcome events].
  split; [|split; [|split]].
  - intros d -> Hm. unfold single_fetch. cbn [py_get mbind result_bind].
    rewrite Hm. reflexivity.
  - intros v -> Hv. unfold single_fetch. cbn [mbind result_bind].
    destruct v as [| | | | |d]; try reflexivity. destruct (Hv d eq_refl).
  - intros e ->. reflexivity.
  - reflexivity.
Qed.

End FetcherExtras.

Lemma get_metrics_malformed_response_witness :
  outcome (get_metrics no_metrics_key 1 "us-east-1" (PStr "AWS/EC2") PNone tt)
  = Some (Err TypeError).
Proof.
  apply (proj1 (get_metrics_malformed_response no_metrics_key 0 "us-east-1"
                  (PStr "AWS/EC2") PNone tt eq_refl)
           [("ResponseMetadata", PDict [])]); reflexivity.
Defined.

(** ** The batch: its layout *)

(** The batch is laid out metric by metric, and statistic by statistic
    within a metric. *)
Lemma batch_from_lookup k ms stats p i j m stat :
  ms !! i = Some m -> stats !! j = Some stat ->
  batch_from k ms stats p !! (i * length stats + j)%nat
  = Some (descriptor stat (k + i) m p).
Proof.
  intros Hm Hs. revert k i Hm. induction ms as [|m0 ms IH]; intros k i Hm; [done|].
  rewrite batch_from_cons. destruct i as [|i].
  - injection Hm as ->. rewrite Nat.add_0_r. cbn [Nat.mul Nat.add].
    rewrite lookup_app_l by (rewrite length_fmap; by eapply lookup_lt_Some).
    rewrite list_lookup_fmap, Hs. reflexivity.
  - cbn [lookup list_lookup] in Hm.
    rewrite lookup_app_r by (rewrite length_fmap; lia).
    rewrite length_fmap.
    replace (S i * length stats + j - length stats)%nat with (i * length stats + j)%nat
      by lia.
    rewrite (IH (S k) i Hm).
    replace (S k + i)%nat with (k + S i)%nat by lia. reflexivity.
Qed.

Lemma batch_from_lookup_inv k ms stats p n q :
  batch_from k ms stats p !! n = Some q ->
  exists m stat, ms !! (n / length stats)%nat = Some m
                 /\ stats !! (n mod length stats)%nat = Some stat
                 /\ q = descriptor stat (k + n / length stats) m p.
Proof.
  intros Hq. pose proof (lookup_lt_Some _ _ _ Hq) as Hn.
  rewrite batch_from_length in Hn.
  assert (Hs : (length stats <> 0)%nat) by lia.
  assert (Hi : (n / length stats < length ms)%nat).
  { apply Nat.Div0.div_lt_upper_bound. lia. }
  assert (Hj : (n mod length stats < length stats)%nat) by (by apply Nat.mod_upper_bound).
  destruct (lookup_lt_is_Some_2 _ _ Hi) as [m Hm].
  destruct (lookup_lt_is_Some_2 _ _ Hj) as [stat Hstat].
  exists m, stat. split; [done|]. split; [done|].
  pose proof (batch_from_lookup k ms stats p _ _ m stat Hm Hstat) as H.
  replace (n / length stats * length stats + n mod length stats)%nat with n in H
    by (rewrite (Nat.div_mod_eq n (length stats)) at 1; lia).
  congruence.
Qed.




(** ** The client: refusals, the query and the records *)

Lemma try_map_length {A B} (f : A -> result B) l l' :
  try_map f l = Ok l' -> length l' = length l.
Proof.
  revert l'. induction l as [|x l IH]; intros l'; cbn [try_map].
  - by intros [= <-].
  - destruct (f x) as [y|e]; cbn [mbind result_bind]; [|discriminate].
    destruct (try_map f l) as [ys|e]; cbn [mbind result_bind]; [|discriminate].
    intros [= <-]. cbn. by rewrite (IH ys).
Qed.

Lemma enumerate_from_length {A} k (l : list A) : length (enumerate_from k l) = length l.
Proof. revert k. induction l as [|x l IH]; intros k; cbn; [done|by rewrite IH]. Qed.

(** A correlation that succeeds gives one record per entry, and had no more
    entries than descriptors. *)
Lemma correlate_length batch items records :
  Forall is_descriptor batch -> correlate batch items = Ok records ->
  length records = length items /\ (length items <= length batch)%nat.
Proof.
  intros Hb H. split.
  { unfold correlate, enumerate in H. apply try_map_length in H.
    by rewrite enumerate_from_length in H. }
  destruct (decide (length items <= length batch)%nat) as [|Hn]; [done|].
  unfold correlate, enumerate in H.
  rewrite try_map_enumerate_overflow in H; [discriminate|done|lia|lia].
Qed.

Section ClientExtras.
Context {St : Type} (W : world St).

(** X11: a falsy client, an exception of [boto3.client] or a period of more
    than 999999999 days (in minutes, as [timedelta(minutes=period)] reads
    it) makes [get_data] raise before any query is sent. *)
Theorem get_data_refuses_before_query metrics statistics_list start end_ p s :
  let r := get_data W metrics statistics_list start end_ p s in
  (boto3_client W s = Ok false ->
   r = Run (Some (Err (Exception "Failed to connect"))) s []) /\
  (forall e, boto3_client W s = Err e -> r = Run (Some (Err e)) s []) /\
  (boto3_client W s = Ok true -> p / 1440 < - max_days \/ max_days < p / 1440 ->
   r = Run (Some (Err OverflowError)) s []).
Proof.
  intros r. subst r. rewrite get_data_unfold. split; [|split].
  - intros ->. reflexivity.
  - intros e ->. reflexivity.
  - intros -> Hp. rewrite (timedelta_minutes_out_of_range _ Hp). reflexivity.
Qed.

(** X12: with a truthy client and a period [timedelta] accepts, [get_data]
    sends exactly one query, holding the whole batch and the window it was
    given, whatever the provider answers. *)
Theorem get_data_one_query metrics statistics_list start end_ p s :
  boto3_client W s = Ok true -> - max_days <= p / 1440 <= max_days ->
  let req := {| MetricDataQueries := build_metric_data metrics statistics_list p;
                StartTime := start; EndTime := end_ |} in
  let r := get_data W metrics statistics_list start end_ p s in
  events r = [EGetMetricData req] /\ final r = (get_metric_data W req s).2 /\
  outcome r <> None.
Proof.
  intros Hc Hp req r. subst req r.
  rewrite get_data_unfold, Hc, (timedelta_minutes_in_range _ Hp). cbn. done.
Qed.

Lemma get_data_Ok metrics statistics_list start end_ p s records :
  outcome (get_data W metrics statistics_list start end_ p s) = Some (Ok records) ->
  exists items, correlate (build_metric_data metrics statistics_list p) items = Ok records.
Proof.
  rewrite get_data_unfold.
  destruct (boto3_client W s) as [[|]|e]; [|discriminate..].
  destruct (timedelta_minutes p) as [d|e]; [|discriminate].
  cbn [outcome]. intros [= H].
  apply result_bind_Ok in H as (data & _ & H).
  apply result_bind_Ok in H as (results & _ & H).
  apply result_bind_Ok in H as (items & _ & H).
  eauto.
Qed.

(** X13: in what [get_data] returns, the record at position [k] holds the
    metric at position [k / S] of the catalog, [S] the number of
    statistics. *)
Theorem get_data_record_metric metrics statistics_list start end_ p s records k rec :
  outcome (get_data W metrics statistics_list start end_ p s) = Some (Ok records) ->
  records !! k = Some rec ->
  exists datapoint m,
    metrics !! (k / length statistics_list)%nat = Some m /\
    rec = PDict [("Data", datapoint); ("Metric", m)].
Proof.
  intros (items & H)%get_data_Ok Hk.
  pose proof (correlate_length _ _ _
                (build_metric_data_descriptors metrics statistics_list p) H) as [Hl _].
  destruct (lookup_lt_is_Some_2 items k) as [r Hr].
  { rewrite <- Hl. by eapply lookup_lt_Some. }
  destruct (correlate_positional _ _ _ H k r Hr) as (q & m & Hq & Hm & Hrec).
  rewrite build_metric_data_from in Hq.
  apply batch_from_lookup_inv in Hq as (m' & stat & Hm' & _ & ->).
  rewrite descriptor_metric in Hm. injection Hm as <-.
  exists r, m'. split; [done|congruence].
Qed.


(** X15: an answer that is a dict without ['MetricDataResults'] makes
    [get_data] raise [KeyError], after the query was sent. *)
Theorem get_data_missing_results metrics statistics_list start end_ p s d :
  boto3_client W s = Ok true -> - max_days <= p / 1440 <= max_days ->
  let req := {| MetricDataQueries := build_metric_data metrics statistics_list p;
                StartTime := start; EndTime := end_ |} in
  (get_metric_data W req s).1 = Ok (PDict d) -> assoc "MetricDataResults" d = None ->
  get_data W metrics statistics_list start end_ p s
  = Run (Some (Err (KeyError "MetricDataResults"))) (get_metric_data W req s).2
        [EGetMetricData req].
Proof.
  intros Hc Hp req Hd Hk. subst req.
  rewrite get_data_unfold, Hc, (timedelta_minutes_in_range _ Hp). cbn zeta.
  rewrite Hd. cbn [mbind result_bind py_getitem]. rewrite Hk. reflexivity.
Qed.

End ClientExtras.

Lemma get_data_refuses_before_query_witness :
  get_data (scripted disconnected) [cpu] ["Average"; "Sum"] 0 3600000000 60 tt
    = Run (Some (Err (Exception "Failed to connect"))) tt [] /\
  get_data (scripted one_page) [cpu] ["Average"; "Sum"] 0 3600000000 1440000000000 tt
    = Run (Some (Err OverflowError)) tt [].
Proof.
  split.
  - apply (proj1 (get_data_refuses_before_query (scripted disconnected) [cpu]
                    ["Average"; "Sum"] 0 3600000000 60 tt)).
    reflexivity.
  - apply (proj2 (proj2 (get_data_refuses_before_query (scripted one_page) [cpu]
                           ["Average"; "Sum"] 0 3600000000 1440000000000 tt))).
    + reflexivity.
    + right. vm_compute. reflexivity.
Defined.

Lemma get_data_one_query_witness :
  events (get_data (scripted one_page) [cpu] ["Average"; "Sum"] 0 3600000000 60 tt)
  = [EGetMetricData {| MetricDataQueries := build_metric_data [cpu] ["Average"; "Sum"] 60;
                       StartTime := 0; EndTime := 3600000000 |}].
Proof.
  apply (get_data_one_query (scripted one_page) [cpu] ["Average"; "Sum"] 0 3600000000 60 tt).
  - reflexivity.
  - vm_compute. split; discriminate.
Defined.

Lemma get_data_record_metric_witness :
  exists datapoint m,
    [cpu; disk] !! (0 / length ["Average"; "Sum"])%nat = Some m /\
    PDict [("Data", PDict [("Id", PStr "average0")]); ("Metric", cpu)]
    = PDict [("Data", datapoint); ("Metric", m)].
Proof.
  apply (get_data_record_metric (scripted short_answer) [cpu; disk] ["Average"; "Sum"]
           0 3600000000 60 tt
           [PDict [("Data", PDict [("Id", PStr "average0")]); ("Metric", cpu)]] 0%nat).
  - vm_compute. reflexivity.
  - reflexivity.
Defined.


Lemma get_data_missing_results_witness :
  get_data (scripted no_results_key) [cpu] ["Average"; "Sum"] 0 3600000000 60 tt
  = Run (Some (Err (KeyError "MetricDataResults"))) tt
        [EGetMetricData {| MetricDataQueries := build_metric_data [cpu] ["Average"; "Sum"] 60;
                           StartTime := 0; EndTime := 3600000000 |}].
Proof.
  apply (get_data_missing_results (scripted no_results_key) [cpu] ["Average"; "Sum"]
           0 3600000000 60 tt [("ResponseMetadata", PDict [])]).
  - reflexivity.
  - vm_compute. split; discriminate.
  - reflexivity.
  - reflexivity.
Defined.

(** ** The entry point: queries, traces and unused options *)

Lemma main_statistics_ids k ms p :
  NoDup (descriptor_ids (batch_from k ms ["Average"; "Sum"] p)).
Proof.
  apply batch_from_ids_NoDup.
  - apply NoDup_cons. split; [|apply NoDup_singleton].
    intros [=]%list_elem_of_singleton.
  - repeat constructor.
Qed.

Lemma pairs_length (metrics : list pyval) :
  length (m ← metrics; s ← ["Average"; "Sum"]; [(m, s)]) = (2 * length metrics)%nat.
Proof.
  induction metrics as [|m ms IH]; [reflexivity|].
  rewrite bind_cons, length_app, IH. cbn. lia.
Qed.

Lemma filter_all (P : event -> bool) evs :
  Forall (fun e => P e = true) evs -> List.filter P evs = evs.
Proof.
  induction 1 as [|e evs He _ IH]; [reflexivity|]. cbn. by rewrite He, IH.
Qed.

Lemma filter_none (P Q : event -> bool) evs :
  (forall e, Q e = true -> P e = false) ->
  Forall (fun e => Q e = true) evs -> List.filter P evs = [].
Proof.
  intros HQ. induction 1 as [|e evs He _ IH]; [reflexivity|]. cbn.
  by rewrite (HQ e He), IH.
Qed.

Section EntryPointExtras.
Context {St : Type} (U : util_module) (W : world St).


Lemma get_data_query_events metrics stats start end_ p s :
  Forall (fun e => e = EGetMetricData {| MetricDataQueries := build_metric_data metrics stats p;
                                         StartTime := start; EndTime := end_ |})
         (events (get_data W metrics stats start end_ p s)).
Proof.
  rewrite get_data_unfold.
  destruct (boto3_client W s) as [[|]|e]; [destruct (timedelta_minutes p)|..];
    cbn; repeat constructor.
Qed.

Lemma get_data_Ok_events metrics stats start end_ p s l :
  outcome (get_data W metrics stats start end_ p s) = Some (Ok l) ->
  events (get_data W metrics stats start end_ p s)
  = [EGetMetricData {| MetricDataQueries := build_metric_data metrics stats p;
                       StartTime := start; EndTime := end_ |}].
Proof.
  rewrite get_data_unfold.
  destruct (boto3_client W s) as [[|]|e]; [destruct (timedelta_minutes p)|..];
    cbn [outcome events]; try discriminate.
  reflexivity.
Qed.

(** The [with] block either runs to its end, or stops at [open] or at
    [pickle.dump]. *)
Lemma main_tail_cases f data s :
  (outcome (main_tail W f data s) = Some (Ok 0) /\
   events (main_tail W f data s)
   = [EOpen f; EDump (PList data); EPrint "Wrote results to file: %s" [PStr f];
      EPrint "%s" [PList data]]) \/
  ((exists e, outcome (main_tail W f data s) = Some (Err e)) /\
   (events (main_tail W f data s) = [EOpen f] \/
    events (main_tail W f data s) = [EOpen f; EDump (PList data)])).
Proof.
  unfold main_tail. destruct (open_wb W f s) as [[[]|e] s1]; cbn [fst snd].
  - destruct (pickle_dump W (PList data) s1) as [[[]|e] s2]; cbn [fst snd outcome events].
    + left. done.
    + right. eauto.
  - right. cbn. eauto.
Qed.

(** X16: a batched query [main] sends is sent outside check mode, for the
    window [get_time_range] returned, over the catalog [get_metrics]
    returned and the statistics [Average] and [Sum]; its ids are pairwise
    distinct and every descriptor has the period of the options. *)
Theorem main_query_is_well_formed fuel opts s req :
  EGetMetricData req ∈ events (main U W fuel opts s) ->
  check opts = false /\
  get_time_range U (clock W s) (time opts) (interval opts)
    = Ok (StartTime req, EndTime req) /\
  (exists metrics,
     outcome (get_metrics W fuel (region opts) (PStr (namespace opts)) (dimensions opts) s)
       = Some (Ok metrics) /\
     MetricDataQueries req = build_metric_data metrics ["Average"; "Sum"] (period opts)) /\
  NoDup (descriptor_ids (MetricDataQueries req)) /\
  Forall (fun q => metric_stat "Period" q = Ok (PInt (period opts))) (MetricDataQueries req).
Proof.
  rewrite main_unfold.
  pose proof (get_metrics_events W fuel (region opts) (PStr (namespace opts))
                (dimensions opts) s) as L1.
  destruct (get_time_range U (clock W s) (time opts) (interval opts))
    as [[start end_]|e1]; [|by intros ?%elem_of_nil].
  cbv zeta.
  destruct (get_metrics W fuel (region opts) (PStr (namespace opts)) (dimensions opts) s)
    as [o1 s1 evs1].
  cbn [outcome final events] in *.
  assert (N1 : EGetMetricData req ∉ evs1).
  { intros Hin. apply (proj1 (Forall_forall _ _) L1) in Hin. discriminate Hin. }
  destruct o1 as [[metrics|e2]|]; cbn [events]; try (intros Hin; by destruct N1).
  pose proof (get_data_query_events metrics ["Average"; "Sum"] start end_ (period opts) s1)
    as L2.
  destruct (check opts).
  { cbn [events]. rewrite elem_of_app. intros [Hin|Hin]; [by destruct N1|].
    apply (proj1 (Forall_forall _ _) (planned_output_prints _ _ _ _)) in Hin.
    discriminate Hin. }
  destruct (get_data W metrics ["Average"; "Sum"] start end_ (period opts) s1)
    as [o2 s2 evs2].
  cbn [outcome final events] in *.
  assert (Q : EGetMetricData req ∈ evs2 ->
              req = {| MetricDataQueries := build_metric_data metrics ["Average"; "Sum"]
                                              (period opts);
                       StartTime := start; EndTime := end_ |}).
  { intros Hin. apply (proj1 (Forall_forall _ _) L2) in Hin. by injection Hin. }
  assert (Hreq : EGetMetricData req ∈ evs1 ++ evs2 ->
                 req = {| MetricDataQueries := build_metric_data metrics ["Average"; "Sum"]
                                                 (period opts);
                          StartTime := start; EndTime := end_ |}).
  { rewrite elem_of_app. intros [Hin|Hin]; [by destruct N1|by apply Q]. }
  assert (Hgoal : req = {| MetricDataQueries := build_metric_data metrics ["Average"; "Sum"]
                                                  (period opts);
                           StartTime := start; EndTime := end_ |} ->
          false = false /\
          Ok (start, end_) = Ok (StartTime req, EndTime req) /\
          (exists metrics0,
             Some (Ok metrics) = Some (Ok metrics0) /\
             MetricDataQueries req
             = build_metric_data metrics0 ["Average"; "Sum"] (period opts)) /\
          NoDup (descriptor_ids (MetricDataQueries req)) /\
          Forall (fun q => metric_stat "Period" q = Ok (PInt (period opts)))
                 (MetricDataQueries req)).
  { intros ->. cbn [MetricDataQueries StartTime EndTime].
    split; [reflexivity|]. split; [reflexivity|]. split; [eauto|].
    rewrite build_metric_data_from. split; [apply main_statistics_ids|].
    apply Forall_forall. intros q (stat & i & m & _ & _ & _ & ->)%batch_from_elem.
    apply descriptor_period. }
  destruct o2 as [[data|e3]|]; cbn [events]; try (intros Hin; by apply Hgoal, Hreq).
  destruct (filename opts) as [f|]; cbn [events]; [|intros Hin; by apply Hgoal, Hreq].
  rewrite app_assoc, elem_of_app. intros [Hin|Hin]; [by apply Hgoal, Hreq|].
  destruct (main_tail_cases f data s2) as [[_ E]|[_ [E|E]]]; rewrite E in Hin;
    repeat (apply elem_of_cons in Hin as [Hin|Hin]; try discriminate Hin);
    by apply elem_of_nil in Hin.
Qed.


(** X18: outside check mode and without a file name [main] never returns
    and never touches a file; when the three phases succeed it raises
    [TypeError] at [open], after the batched query was sent. *)
Theorem main_without_filename fuel opts s :
  check opts = false -> filename opts = None ->
  let r := main U W fuel opts s in
  (forall z, outcome r <> Some (Ok z)) /\
  existsb is_file_event (events r) = false /\
  (forall start end_ metrics data,
     get_time_range U (clock W s) (time opts) (interval opts) = Ok (start, end_) ->
     outcome (get_metrics W fuel (region opts) (PStr (namespace opts)) (dimensions opts) s)
       = Some (Ok metrics) ->
     outcome (get_data W metrics ["Average"; "Sum"] start end_ (period opts)
                (final (get_metrics W fuel (region opts) (PStr (namespace opts))
                          (dimensions opts) s)))
       = Some (Ok data) ->
     outcome r = Some (Err TypeError) /\
     EGetMetricData {| MetricDataQueries :=
                         build_metric_data metrics ["Average"; "Sum"] (period opts);
                       StartTime := start; EndTime := end_ |} ∈ events r).
Proof.
  intros Hc Hf r. subst r. rewrite main_unfold, Hc, Hf.
  pose proof (get_metrics_no_file W fuel (region opts) (PStr (namespace opts))
                (dimensions opts) s) as H1.
  destruct (get_time_range U (clock W s) (time opts) (interval opts))
    as [[start end_]|e1].
  2: { split; [discriminate|]. split; [reflexivity|]. intros ? ? ? ? [=]. }
  cbv zeta.
  destruct (get_metrics W fuel (region opts) (PStr (namespace opts)) (dimensions opts) s)
    as [o1 s1 evs1].
  cbn [outcome final events] in *.
  destruct o1 as [[metrics|e2]|].
  2,3: (split; [discriminate|]; split; [exact H1|]; intros ? ? ? ? _ [=]).
  pose proof (get_data_no_file W metrics ["Average"; "Sum"] start end_ (period opts) s1)
    as H2.
  pose proof (get_data_Ok_events metrics ["Average"; "Sum"] start end_ (period opts) s1)
    as E2.
  destruct (get_data W metrics ["Average"; "Sum"] start end_ (period opts) s1)
    as [o2 s2 evs2] eqn:E3.
  cbn [outcome final events] in *.
  assert (H12 : existsb is_file_event (evs1 ++ evs2) = false).
  { rewrite existsb_app, H1, H2. reflexivity. }
  destruct o2 as [[data|e3]|]; cbn [outcome events].
  - split; [discriminate|]. split; [exact H12|].
    intros start' end' metrics' data' [= <- <-] [= <-] _. split; [reflexivity|].
    rewrite (E2 data eq_refl), elem_of_app. right. apply list_elem_of_singleton.
    reflexivity.
  - split; [discriminate|]. split; [exact H12|].
    intros start' end' metrics' data' [= <- <-] [= <-] Hgd.
    rewrite E3 in Hgd. discriminate Hgd.
  - split; [discriminate|]. split; [exact H12|].
    intros start' end' metrics' data' [= <- <-] [= <-] Hgd.
    rewrite E3 in Hgd. discriminate Hgd.
Qed.


(** X20: the option [resolve] never changes a run of [main], and in check
    mode the file name does not either. *)
Theorem unused_options fuel opts s :
  (forall b, main U W fuel (with_resolve b opts) s = main U W fuel opts s) /\
  (check opts = true ->
   forall f, main U W fuel (with_filename f opts) s = main U W fuel opts s).
Proof.
  split.
  - intros b. reflexivity.
  - intros Hc f. rewrite !main_unfold.
    cbn [with_filename time interval region namespace dimensions period check filename].
    rewrite Hc. reflexivity.
Qed.

(** X21: in check mode, after a discovery of [M] metrics, [main] prints
    [3 + 2 * M] lines. *)
Theorem check_mode_line_count fuel opts s start end_ metrics :
  check opts = true ->
  get_time_range U (clock W s) (time opts) (interval opts) = Ok (start, end_) ->
  outcome (get_metrics W fuel (region opts) (PStr (namespace opts)) (dimensions opts) s)
    = Some (Ok metrics) ->
  length (List.filter is_print_event (events (main U W fuel opts s)))
  = (3 + 2 * length metrics)%nat.
Proof.
  intros Hc Ht Hm. rewrite main_unfold, Hc, Ht. cbv zeta. rewrite Hm. cbn [events].
  rewrite List.filter_app.
  rewrite (filter_none is_print_event is_listing_event);
    [|by intros []|apply get_metrics_events].
  rewrite (filter_all _ _ (planned_output_prints _ _ _ _)).
  unfold planned_output. rewrite !length_app, length_fmap, pairs_length. reflexivity.
Qed.

End EntryPointExtras.

Lemma main_query_is_well_formed_witness :
  NoDup (descriptor_ids (build_metric_data [cpu] ["Average"; "Sum"] 60)).
Proof.
  apply (main_query_is_well_formed util_spec (scripted one_page) 2 sample_options tt
           {| MetricDataQueries := build_metric_data [cpu] ["Average"; "Sum"] 60;
              StartTime := instant_of 2024 1 15 9 30;
              EndTime := instant_of 2024 1 15 10 30 |}).
  vm_compute. apply elem_of_cons. right. apply elem_of_cons. left. reflexivity.
Defined.


Lemma main_without_filename_witness :
  outcome (main util_spec (scripted one_page) 2 options_without_filename tt)
    = Some (Err TypeError) /\
  EGetMetricData {| MetricDataQueries := build_metric_data [cpu] ["Average"; "Sum"] 60;
                    StartTime := instant_of 2024 1 15 9 30;
                    EndTime := instant_of 2024 1 15 10 30 |}
    ∈ events (main util_spec (scripted one_page) 2 options_without_filename tt).
Proof.
  apply (proj2 (proj2 (main_without_filename util_spec (scripted one_page) 2
                         options_without_filename tt eq_refl eq_refl))
           (instant_of 2024 1 15 9 30) (instant_of 2024 1 15 10 30) [cpu]
           [PDict [("Data", PDict [("Id", PStr "average0"); ("Values", PList [])]);
                   ("Metric", cpu)];
            PDict [("Data", PDict [("Id", PStr "sum0"); ("Values", PList [])]);
                   ("Metric", cpu)]]).
  - vm_compute. reflexivity.
  - vm_compute. reflexivity.
  - vm_compute. reflexivity.
Defined.


Lemma unused_options_witness :
  main util_spec (scripted one_page) 2 (with_filename (Some "x") check_options) tt
  = main util_spec (scripted one_page) 2 check_options tt.
Proof.
  apply (proj2 (unused_options util_spec (scripted one_page) 2 check_options tt) eq_refl).
Defined.

Lemma check_mode_line_count_witness :
  length (List.filter is_print_event
            (events (main util_spec (scripted one_page) 2 check_options tt)))
  = (3 + 2 * length [cpu])%nat.
Proof.
  apply (check_mode_line_count util_spec (scripted one_page) 2 check_options tt
           (instant_of 2024 1 15 9 30) (instant_of 2024 1 15 10 30) [cpu] eq_refl).
  - vm_compute. reflexivity.
  - vm_compute. reflexivity.
Defined.
